(** * Weather & Stock Data Server: the tools and prompts of [mymcp.py]

    A shallow embedding of the six tools and the weather-report prompt.
    Python values are modelled as follows.
    - [str] is [string], one character per code point (code points below 256);
    - [int] is [Z], rendered by [str_int] as Python's [str] does;
    - [float] is [PyFloat]: the code only ever renders floats, so a finite
      float is carried by the text [float.__repr__] gives it;
    - a decoded JSON document (and every value handed to [json.dumps]) is
      [json]; a [dict] keeps its insertion order as an association list;
    - an upstream call is a query to a [World] (the network and the finance
      library), logged in the trace of the tool monad [M];
    - [try: ... except Exception as e:] is [try_except]. *)

From Stdlib Require Import ZArith List String Ascii Bool Lia DecimalString Sorted.
Import ListNotations.
Open Scope string_scope.
Open Scope Z_scope.

(** ** Text *)

Definition chr (n : nat) : string := String (ascii_of_nat n) EmptyString.

(** The double quote and the line feed, which the templates and
    [json.dumps] emit. *)
Definition dq : string := chr 34.
Definition nl : string := chr 10.
Definition backslash : string := chr 92.

(** [str(n)] for a Python [int]. *)
Definition str_int (n : Z) : string := NilZero.string_of_int (Z.to_int n).

(** [sep.join(parts)]. *)
Definition join (sep : string) (parts : list string) : string :=
  String.concat sep parts.

(** [needle in hay] for two [str]. *)
Fixpoint str_contains (needle hay : string) : bool :=
  String.prefix needle hay ||
  match hay with
  | EmptyString => false
  | String _ rest => str_contains needle rest
  end.

(** The characters of a [str], as iteration yields them. *)
Fixpoint str_chars (s : string) : list string :=
  match s with
  | EmptyString => []
  | String c rest => String c EmptyString :: str_chars rest
  end.

(** ** Floats *)

Inductive PyFloat :=
| Finite (repr : string)
| NaN
| PosInf
| NegInf.

(** [str(x)], which an f-string applies to a float. *)
Definition str_float (x : PyFloat) : string :=
  match x with
  | Finite r => r
  | NaN => "nan"
  | PosInf => "inf"
  | NegInf => "-inf"
  end.

(** ** JSON values and [json.dumps(_, indent=2)] *)

#[warning="-register-all"] Inductive json :=
| JNull
| JBool (b : bool)
| JInt (n : Z)
| JFloat (x : PyFloat)
| JStr (s : string)
| JList (l : list json)
| JDict (d : list (string * json)).

Definition dict := list (string * json).

(** [json.dumps] of a float: [float.__repr__], but for the three specials. *)
Definition json_float (x : PyFloat) : string :=
  match x with
  | Finite r => r
  | NaN => "NaN"
  | PosInf => "Infinity"
  | NegInf => "-Infinity"
  end.

Definition hex_digit (n : nat) : string :=
  match n with
  | 0%nat => "0" | 1%nat => "1" | 2%nat => "2" | 3%nat => "3"
  | 4%nat => "4" | 5%nat => "5" | 6%nat => "6" | 7%nat => "7"
  | 8%nat => "8" | 9%nat => "9" | 10%nat => "a" | 11%nat => "b"
  | 12%nat => "c" | 13%nat => "d" | 14%nat => "e" | _ => "f"
  end.

(** One character of [py_encode_basestring_ascii] ([ensure_ascii=True]). *)
Definition escape_char (c : ascii) : string :=
  let n := nat_of_ascii c in
  if Nat.eqb n 34 then backslash ++ dq
  else if Nat.eqb n 92 then backslash ++ backslash
  else if Nat.eqb n 10 then backslash ++ "n"
  else if Nat.eqb n 13 then backslash ++ "r"
  else if Nat.eqb n 9 then backslash ++ "t"
  else if Nat.eqb n 8 then backslash ++ "b"
  else if Nat.eqb n 12 then backslash ++ "f"
  else if Nat.ltb n 32 || Nat.ltb 126 n
       then backslash ++ "u00" ++ hex_digit (n / 16) ++ hex_digit (n mod 16)
  else String c EmptyString.

Fixpoint escape (s : string) : string :=
  match s with
  | EmptyString => EmptyString
  | String c rest => escape_char c ++ escape rest
  end.

Definition json_string (s : string) : string := dq ++ escape s ++ dq.

(** [level] copies of the two-space indent. *)
Fixpoint indent (level : nat) : string :=
  match level with
  | O => EmptyString
  | S k => "  " ++ indent k
  end.

(** The encoder at nesting depth [level]: item separator [","], key
    separator [": "], each item on a line of its own. *)
Fixpoint dumps_at (level : nat) (j : json) : string :=
  match j with
  | JNull => "null"
  | JBool true => "true"
  | JBool false => "false"
  | JInt n => str_int n
  | JFloat x => json_float x
  | JStr s => json_string s
  | JList [] => "[]"
  | JList l =>
      "[" ++ nl ++ indent (S level)
      ++ join ("," ++ nl ++ indent (S level)) (map (dumps_at (S level)) l)
      ++ nl ++ indent level ++ "]"
  | JDict [] => "{}"
  | JDict d =>
      "{" ++ nl ++ indent (S level)
      ++ join ("," ++ nl ++ indent (S level))
           (map (fun kv => json_string (fst kv) ++ ": " ++ dumps_at (S level) (snd kv)) d)
      ++ nl ++ indent level ++ "}"
  end.

Definition json_dumps (j : json) : string := dumps_at 0 j.

(** ** Python's dynamic operations on decoded values *)

(** What the tools' [try] blocks can raise: an error of an upstream call,
    carrying its text, or one of the interpreter's own type errors.  *)
Inductive exn :=
| UpstreamError (text : string)
| AttributeError (type_name attr : string)
| NotIterable (type_name : string)
| NotContainer (type_name : string).

(** [str(e)] (the interpreter's wording is CPython 3.12's). *)
Definition str_exn (e : exn) : string :=
  match e with
  | UpstreamError text => text
  | AttributeError ty attr =>
      "'" ++ ty ++ "' object has no attribute '" ++ attr ++ "'"
  | NotIterable ty => "'" ++ ty ++ "' object is not iterable"
  | NotContainer ty => "argument of type '" ++ ty ++ "' is not iterable"
  end.

Definition type_name (j : json) : string :=
  match j with
  | JNull => "NoneType"
  | JBool _ => "bool"
  | JInt _ => "int"
  | JFloat _ => "float"
  | JStr _ => "str"
  | JList _ => "list"
  | JDict _ => "dict"
  end.

(** [k in d] and [d.get(k, default)] for a [dict]. *)
Fixpoint dict_lookup (d : dict) (k : string) : option json :=
  match d with
  | [] => None
  | (k', v) :: rest => if String.eqb k' k then Some v else dict_lookup rest k
  end.

Definition dict_has (d : dict) (k : string) : bool :=
  match dict_lookup d k with Some _ => true | None => false end.

Definition dict_get (d : dict) (k : string) (default : json) : json :=
  match dict_lookup d k with Some v => v | None => default end.

(** [x.get(k, default)] on a decoded value: only a [dict] has [get]. *)
Definition py_get (x : json) (k : string) (default : json) : exn + json :=
  match x with
  | JDict d => inr (dict_get d k default)
  | _ => inl (AttributeError (type_name x) "get")
  end.

(** [for item in x]: the items a decoded value yields. *)
Definition py_iter (x : json) : exn + list json :=
  match x with
  | JList l => inr l
  | JDict d => inr (map (fun kv => JStr (fst kv)) d)
  | JStr s => inr (map JStr (str_chars s))
  | _ => inl (NotIterable (type_name x))
  end.

Definition is_str (s : string) (j : json) : bool :=
  match j with JStr s' => String.eqb s s' | _ => false end.

(** [s in x] for a [str] s: key of a dict, element of a list, substring of
    a str. *)
Definition py_contains (s : string) (x : json) : exn + bool :=
  match x with
  | JDict d => inr (dict_has d s)
  | JList l => inr (existsb (is_str s) l)
  | JStr h => inr (str_contains s h)
  | _ => inl (NotContainer (type_name x))
  end.

(** ** Upstream services *)

Definition headers := list (string * string).

(** A [requests.Response]: what [raise_for_status()] raises, if anything,
    and what [json()] gives. *)
Record Response := mkResponse {
  status_error : option exn;
  json_body : exn + json
}.

(** A [pandas.Timestamp]; the code reads its calendar fields only. *)
Record Timestamp := mkTimestamp { year : Z; month : Z; day : Z }.

(** A row of the history frame, with the index entry it is paired with. *)
Record Row := mkRow {
  row_date : Timestamp;
  Open : PyFloat;
  High : PyFloat;
  Low : PyFloat;
  Close : PyFloat;
  Volume : PyFloat
}.

Record World := mkWorld {
  requests_get_in : string -> option headers -> exn + Response;
  ticker_info_in : string -> exn + dict;
  ticker_history_in : string -> string -> exn + list Row
}.

(** An upstream call, as issued. *)
Inductive Call :=
| HttpGet (url : string) (hdrs : option headers)
| TickerInfo (symbol : string)
| TickerHistory (symbol period : string).

(** ** The tool monad: read the world, log the calls, raise or return *)

Definition M (A : Type) : Type := World -> list Call * (exn + A).

Definition ret {A} (a : A) : M A := fun _ => ([], inr a).

Definition raise {A} (e : exn) : M A := fun _ => ([], inl e).

Definition bind {A B} (m : M A) (k : A -> M B) : M B :=
  fun w =>
    match m w with
    | (t, inl e) => (t, inl e)
    | (t, inr a) => let (t', r) := k a w in ((t ++ t')%list, r)
    end.

Notation "x <- m ;; k" := (bind m (fun x => k))
  (at level 61, m at next level, right associativity).
Notation "m ;;; k" := (bind m (fun _ => k))
  (at level 61, right associativity).

(** [try: body  except Exception as e: handler e]. *)
Definition try_except {A} (body : M A) (handler : exn -> M A) : M A :=
  fun w =>
    match body w with
    | (t, inl e) => let (t', r) := handler e w in ((t ++ t')%list, r)
    | (t, inr a) => (t, inr a)
    end.

(** A value that evaluation may raise instead of giving. *)
Definition lift {A} (r : exn + A) : M A := fun _ => ([], r).

Definition requests_get (url : string) (hdrs : option headers) : M Response :=
  fun w => ([HttpGet url hdrs], requests_get_in w url hdrs).

Definition raise_for_status (r : Response) : M unit :=
  match status_error r with
  | Some e => raise e
  | None => ret tt
  end.

Definition response_json (r : Response) : M json := lift (json_body r).

(** [yf.Ticker(symbol).info]; building the [Ticker] calls nothing. *)
Definition ticker_info (symbol : string) : M dict :=
  fun w => ([TickerInfo symbol], ticker_info_in w symbol).

(** [yf.Ticker(symbol).history(period=period)]. *)
Definition ticker_history (symbol period : string) : M (list Row) :=
  fun w => ([TickerHistory symbol period], ticker_history_in w symbol period).

(** The handle the host passes to every tool; no tool reads it. *)
Inductive Context := HostContext.

(** ** Weather tools *)

Definition get_weather (ctx : Context) (latitude longitude : PyFloat) : M string :=
  let url :=
    "https://api.open-meteo.com/v1/forecast?latitude=" ++ str_float latitude
    ++ "&longitude=" ++ str_float longitude
    ++ "&current=temperature_2m,relative_humidity_2m,apparent_temperature,precipitation,weather_code,wind_speed_10m,wind_direction_10m&timezone=auto" in
  try_except
    (response <- requests_get url None ;;
     raise_for_status response ;;;
     weather_data <- response_json response ;;
     ret (json_dumps weather_data))
    (fun e => ret ("Error fetching weather data: " ++ str_exn e)).

Definition get_weather_forecast (ctx : Context) (latitude longitude : PyFloat)
    (days : Z) : M string :=
  let days := if 16 <? days then 16 else days in
  let url :=
    "https://api.open-meteo.com/v1/forecast?latitude=" ++ str_float latitude
    ++ "&longitude=" ++ str_float longitude
    ++ "&daily=weather_code,temperature_2m_max,temperature_2m_min,precipitation_sum,precipitation_hours,wind_speed_10m_max&timezone=auto&forecast_days="
    ++ str_int days in
  try_except
    (response <- requests_get url None ;;
     raise_for_status response ;;;
     forecast_data <- response_json response ;;
     ret (json_dumps forecast_data))
    (fun e => ret ("Error fetching weather forecast: " ++ str_exn e)).

Definition get_location_coordinates (ctx : Context) (location_name : string)
    : M string :=
  let url :=
    "https://geocoding-api.open-meteo.com/v1/search?name=" ++ location_name
    ++ "&count=10&language=en&format=json" in
  try_except
    (response <- requests_get url None ;;
     raise_for_status response ;;;
     location_data <- response_json response ;;
     ret (json_dumps location_data))
    (fun e => ret ("Error fetching location data: " ++ str_exn e)).

(** ** Stock tools *)

(** The [data] dict of [get_stock_price]. *)
Definition stock_quote (symbol : string) (info : dict) : dict :=
  [ ("symbol", JStr symbol);
    ("name", dict_get info "shortName" (JStr "N/A"));
    ("price", dict_get info "currentPrice"
                (dict_get info "regularMarketPrice" (JStr "N/A")));
    ("currency", dict_get info "currency" (JStr "USD"));
    ("day_high", dict_get info "dayHigh" (JStr "N/A"));
    ("day_low", dict_get info "dayLow" (JStr "N/A"));
    ("52_week_high", dict_get info "fiftyTwoWeekHigh" (JStr "N/A"));
    ("52_week_low", dict_get info "fiftyTwoWeekLow" (JStr "N/A"));
    ("market_cap", dict_get info "marketCap" (JStr "N/A"));
    ("volume", dict_get info "volume" (JStr "N/A"));
    ("average_volume", dict_get info "averageVolume" (JStr "N/A"));
    ("pe_ratio", dict_get info "trailingPE" (JStr "N/A"));
    ("dividend_yield", dict_get info "dividendYield" (JStr "N/A")) ].

Definition get_stock_price (ctx : Context) (symbol : string) : M string :=
  try_except
    (info <- ticker_info symbol ;;
     let data := stock_quote symbol info in
     ret (json_dumps (JDict data)))
    (fun e => ret ("Error fetching stock data for " ++ symbol ++ ": " ++ str_exn e)).

Definition valid_periods : list string :=
  ["1d"; "5d"; "1mo"; "3mo"; "6mo"; "1y"; "2y"; "5y"; "max"].

(** [s in l] for a list of [str]. *)
Definition str_in (s : string) (l : list string) : bool :=
  existsb (String.eqb s) l.

(** Two digits, zero-padded ([%m], [%d]). *)
Definition pad2 (n : Z) : string :=
  if n <? 10 then "0" ++ str_int n else str_int n.

(** [date.strftime('%Y-%m-%d')]. *)
Definition strftime_Ymd (date : Timestamp) : string :=
  str_int (year date) ++ "-" ++ pad2 (month date) ++ "-" ++ pad2 (day date).

(** The dict appended for one row. *)
Definition history_point (row : Row) : json :=
  JDict [ ("date", JStr (strftime_Ymd (row_date row)));
          ("open", JFloat (Open row));
          ("high", JFloat (High row));
          ("low", JFloat (Low row));
          ("close", JFloat (Close row));
          ("volume", JFloat (Volume row)) ].

(** The loop over [history.iterrows()], appending to [data]. *)
Fixpoint history_rows (rows : list Row) (data : list json) : list json :=
  match rows with
  | [] => data
  | row :: rest => history_rows rest (data ++ [history_point row])%list
  end.

Definition get_stock_history (ctx : Context) (symbol period : string) : M string :=
  if negb (str_in period valid_periods) then
    ret ("Invalid period: " ++ period ++ ". Valid options are: "
         ++ join ", " valid_periods)
  else
    try_except
      (history <- ticker_history symbol period ;;
       let data := history_rows history [] in
       ret (json_dumps (JList data)))
      (fun e => ret ("Error fetching historical stock data for " ++ symbol
                     ++ ": " ++ str_exn e)).

Definition search_headers : headers :=
  [ ("User-Agent",
     "Mozilla/5.0 (Windows NT 10.0; Win64; x64) AppleWebKit/537.36 (KHTML, like Gecko) Chrome/91.0.4472.124 Safari/537.36") ].

(** The loop over [quotes], appending to [results]; an item that is not a
    dict raises on [in] or on [get]. *)
Fixpoint search_quotes (quotes : list json) (results : list json)
    : M (list json) :=
  match quotes with
  | [] => ret results
  | quote :: rest =>
      has_symbol <- lift (py_contains "symbol" quote) ;;
      if has_symbol : bool then
        symbol <- lift (py_get quote "symbol" (JStr EmptyString)) ;;
        shortname <- lift (py_get quote "shortname" (JStr EmptyString)) ;;
        name <- lift (py_get quote "longname" shortname) ;;
        exchange <- lift (py_get quote "exchange" (JStr EmptyString)) ;;
        type <- lift (py_get quote "quoteType" (JStr EmptyString)) ;;
        search_quotes rest
          (results ++ [JDict [ ("symbol", symbol); ("name", name);
                               ("exchange", exchange); ("type", type) ]])%list
      else search_quotes rest results
  end.

(** The [try] block of [search_stocks] up to [json.dumps]: the list
    [results]. *)
Definition search_results_of (query : string) : M (list json) :=
  let url :=
    "https://query2.finance.yahoo.com/v1/finance/search?q=" ++ query
    ++ "&quotesCount=10&newsCount=0" in
  response <- requests_get url (Some search_headers) ;;
  raise_for_status response ;;;
  search_results <- response_json response ;;
  quotes <- lift (py_get search_results "quotes" (JList [])) ;;
  items <- lift (py_iter quotes) ;;
  search_quotes items [].

Definition search_stocks (ctx : Context) (query : string) : M string :=
  try_except
    (results <- search_results_of query ;;
     ret (json_dumps (JList results)))
    (fun e => ret ("Error searching for stocks: " ++ str_exn e)).

(** ** Prompts *)

Definition weather_report_prompt (ctx : Context) (location : string) : M string :=
  ret (nl
    ++ "    Generate a detailed weather report for " ++ location ++ "." ++ nl
    ++ nl
    ++ "    First, I need to get the coordinates for this location. Only city name should be provided:" ++ nl
    ++ "    {{get_location_coordinates(location_name=" ++ dq ++ location ++ dq ++ ")}}" ++ nl
    ++ nl
    ++ "    Using those coordinates, I'll fetch the current weather:" ++ nl
    ++ "    {{get_weather(latitude=LATITUDE, longitude=LONGITUDE)}}" ++ nl
    ++ nl
    ++ "    And also get a 7-day forecast:" ++ nl
    ++ "    {{get_weather_forecast(latitude=LATITUDE, longitude=LONGITUDE, days=7)}}" ++ nl
    ++ nl
    ++ "    Please provide a comprehensive weather report for " ++ location ++ " including:" ++ nl
    ++ nl
    ++ "    1. Current conditions (temperature, humidity, wind, etc.)" ++ nl
    ++ "    2. Weather forecast for the next 7 days" ++ nl
    ++ "    3. Any notable weather patterns or extreme conditions to be aware of" ++ nl
    ++ nl
    ++ "    Make the report informative but easy to understand." ++ nl
    ++ "    The expected output is tabular." ++ nl
    ++ "    ").

(** ** Dispatch and the tables the statements below refer to *)

(** A tool invocation: the tool's name with its arguments. *)
Inductive ToolCall :=
| GetWeather (latitude longitude : PyFloat)
| GetWeatherForecast (latitude longitude : PyFloat) (days : Z)
| GetLocationCoordinates (location_name : string)
| GetStockPrice (symbol : string)
| GetStockHistory (symbol period : string)
| SearchStocks (query : string).

Definition invoke (ctx : Context) (c : ToolCall) : M string :=
  match c with
  | GetWeather latitude longitude => get_weather ctx latitude longitude
  | GetWeatherForecast latitude longitude days =>
      get_weather_forecast ctx latitude longitude days
  | GetLocationCoordinates location_name =>
      get_location_coordinates ctx location_name
  | GetStockPrice symbol => get_stock_price ctx symbol
  | GetStockHistory symbol period => get_stock_history ctx symbol period
  | SearchStocks query => search_stocks ctx query
  end.

(** The text each tool's [except] clause puts before [str(e)]. *)
Definition error_prefix (c : ToolCall) : string :=
  match c with
  | GetWeather _ _ => "Error fetching weather data: "
  | GetWeatherForecast _ _ _ => "Error fetching weather forecast: "
  | GetLocationCoordinates _ => "Error fetching location data: "
  | GetStockPrice symbol => "Error fetching stock data for " ++ symbol ++ ": "
  | GetStockHistory symbol _ =>
      "Error fetching historical stock data for " ++ symbol ++ ": "
  | SearchStocks _ => "Error searching for stocks: "
  end.

(** The framing [Error <verb> ... for <subject>: <error text>]. *)
Definition framed (subject err msg : string) : Prop :=
  exists verb, msg = "Error " ++ verb ++ " for " ++ subject ++ ": " ++ err.

(** One HTTP exchange as the tools perform it: [requests.get], then
    [raise_for_status()], then [json()]. *)
Definition http_exchange (w : World) (url : string) (hdrs : option headers)
    : exn + json :=
  match requests_get_in w url hdrs with
  | inl e => inl e
  | inr r =>
      match status_error r with
      | Some e => inl e
      | None => json_body r
      end
  end.

(** What the caller of an upstream call sees raised, if anything: a
    transport error, a bad status, or a body that does not decode; an
    error of the finance library. *)
Definition upstream_failure (w : World) (u : Call) : option exn :=
  match u with
  | HttpGet url hdrs =>
      match http_exchange w url hdrs with inl e => Some e | inr _ => None end
  | TickerInfo symbol =>
      match ticker_info_in w symbol with inl e => Some e | inr _ => None end
  | TickerHistory symbol period =>
      match ticker_history_in w symbol period with
      | inl e => Some e
      | inr _ => None
      end
  end.

(** The message of [get_stock_history] for a period it rejects. *)
Definition invalid_period_message (period : string) : string :=
  "Invalid period: " ++ period
  ++ ". Valid options are: 1d, 5d, 1mo, 3mo, 6mo, 1y, 2y, 5y, max".

(** A world in which every upstream call raises [text]. *)
Definition failing_world (text : string) : World :=
  mkWorld (fun _ _ => inl (UpstreamError text))
          (fun _ => inl (UpstreamError text))
          (fun _ _ => inl (UpstreamError text)).

(** A world answering every HTTP request with [payload], every [info]
    with [info] and every [history] with [rows]. *)
Definition answering_world (payload : json) (info : dict) (rows : list Row)
    : World :=
  mkWorld (fun _ _ => inr (mkResponse None (inr payload)))
          (fun _ => inr info)
          (fun _ _ => inr rows).

Definition weather_url (latitude longitude : PyFloat) : string :=
  "https://api.open-meteo.com/v1/forecast?latitude=" ++ str_float latitude
  ++ "&longitude=" ++ str_float longitude
  ++ "&current=temperature_2m,relative_humidity_2m,apparent_temperature,precipitation,weather_code,wind_speed_10m,wind_direction_10m&timezone=auto".

(** The forecast URL with [n] as its [forecast_days]. *)
Definition forecast_url (latitude longitude : PyFloat) (n : string) : string :=
  "https://api.open-meteo.com/v1/forecast?latitude=" ++ str_float latitude
  ++ "&longitude=" ++ str_float longitude
  ++ "&daily=weather_code,temperature_2m_max,temperature_2m_min,precipitation_sum,precipitation_hours,wind_speed_10m_max&timezone=auto&forecast_days="
  ++ n.

Definition geocoding_url (location_name : string) : string :=
  "https://geocoding-api.open-meteo.com/v1/search?name=" ++ location_name
  ++ "&count=10&language=en&format=json".

Definition search_url (query : string) : string :=
  "https://query2.finance.yahoo.com/v1/finance/search?q=" ++ query
  ++ "&quotesCount=10&newsCount=0".

(** What the [try] block of [search_stocks] computes from the decoded
    payload, without the world. *)
Definition results_of_payload (w : World) (payload : json) : exn + list json :=
  match py_get payload "quotes" (JList []) with
  | inl e => inl e
  | inr quotes =>
      match py_iter quotes with
      | inl e => inl e
      | inr items => snd (search_quotes items [] w)
      end
  end.

(** The quote fields that fall back to "N/A", each with the key of the
    provider's [info] it is read from. *)
Definition sentinel_fields : list (string * string) :=
  [ ("name", "shortName"); ("day_high", "dayHigh"); ("day_low", "dayLow");
    ("52_week_high", "fiftyTwoWeekHigh"); ("52_week_low", "fiftyTwoWeekLow");
    ("market_cap", "marketCap"); ("volume", "volume");
    ("average_volume", "averageVolume"); ("pe_ratio", "trailingPE");
    ("dividend_yield", "dividendYield") ].

(** An entry that is a dict with a "symbol" key. *)
Definition has_symbol_field (j : json) : bool :=
  match j with
  | JDict d => dict_has d "symbol"
  | _ => false
  end.

(** The match built from an upstream quote. *)
Definition stock_match (quote : json) : json :=
  match quote with
  | JDict d =>
      JDict [ ("symbol", dict_get d "symbol" (JStr EmptyString));
              ("name", dict_get d "longname"
                         (dict_get d "shortname" (JStr EmptyString)));
              ("exchange", dict_get d "exchange" (JStr EmptyString));
              ("type", dict_get d "quoteType" (JStr EmptyString)) ]
  | _ => JNull
  end.

Definition valid_date (t : Timestamp) : Prop :=
  1000 <= year t <= 9999 /\ 1 <= month t <= 12 /\ 1 <= day t <= 31.

(** Calendar order. *)
Definition date_lt (a b : Timestamp) : Prop :=
  year a < year b
  \/ (year a = year b
      /\ (month a < month b \/ (month a = month b /\ day a < day b))).

(** Order of [str], as Python compares them. *)
Definition str_lt (a b : string) : Prop := String.ltb a b = true.

Definition is_digit (c : ascii) : bool :=
  (48 <=? nat_of_ascii c)%nat && (nat_of_ascii c <=? 57)%nat.

Definition is_dash (c : ascii) : bool := (nat_of_ascii c =? 45)%nat.

(** The shape YYYY-MM-DD. *)
Definition is_Ymd (s : string) : bool :=
  match s with
  | String y1 (String y2 (String y3 (String y4 (String h1
      (String m1 (String m2 (String h2
        (String d1 (String d2 EmptyString))))))))) =>
      is_digit y1 && is_digit y2 && is_digit y3 && is_digit y4 && is_dash h1
      && is_digit m1 && is_digit m2 && is_dash h2
      && is_digit d1 && is_digit d2
  | _ => false
  end.

Definition two_digits (s : string) : bool :=
  match s with
  | String a (String b EmptyString) => is_digit a && is_digit b
  | _ => false
  end.

(** The "date" fields of a list of points. *)
Definition dates_of (data : list json) : list string :=
  flat_map
    (fun point =>
       match point with
       | JDict d =>
           match dict_lookup d "date" with
           | Some (JStr s) => [s]
           | _ => []
           end
       | _ => []
       end) data.

(** The integers [lo], [lo + 1], ..., [lo + n - 1]. *)
Definition Z_range (lo n : Z) : list Z :=
  map (fun i => lo + Z.of_nat i) (seq 0 (Z.to_nat n)).

Definition row_on (y m d : Z) : Row :=
  mkRow (mkTimestamp y m d) (Finite "1.0") (Finite "2.0") (Finite "0.5")
        (Finite "1.5") (Finite "1000.0").

(** ** The second prompt and further tables *)

Definition stock_analysis_prompt (ctx : Context) (company : string) : M string :=
  ret (nl
    ++ "    Perform a detailed analysis of " ++ company ++ "'s stock." ++ nl
    ++ nl
    ++ "    First, let me search for the correct stock symbol:" ++ nl
    ++ "    {{search_stocks(query=" ++ dq ++ company ++ dq ++ ")}}" ++ nl
    ++ nl
    ++ "    Now, I'll get the current stock price and information:" ++ nl
    ++ "    {{get_stock_price(symbol=" ++ dq ++ "SYMBOL" ++ dq ++ ")}}" ++ nl
    ++ nl
    ++ "    Let me also get the historical data for the past 3 months:" ++ nl
    ++ "    {{get_stock_history(symbol=" ++ dq ++ "SYMBOL" ++ dq ++ ", period="
    ++ dq ++ "3mo" ++ dq ++ ")}}" ++ nl
    ++ nl
    ++ "    Based on this data, please provide:" ++ nl
    ++ nl
    ++ "    1. Current stock performance summary" ++ nl
    ++ "    2. Key price points (current, daily range, 52-week range)" ++ nl
    ++ "    3. Recent price trends over the past 3 months" ++ nl
    ++ "    4. Basic analysis of the company's financial health based on available metrics" ++ nl
    ++ nl
    ++ "    Make your analysis informative for someone interested in this stock but not necessarily an expert in finance." ++ nl
    ++ "    The expected output is tabular." ++ nl
    ++ "    ").

(** The upstream calls a tool invocation issues. *)
Definition calls_of (c : ToolCall) : list Call :=
  match c with
  | GetWeather latitude longitude =>
      [HttpGet (weather_url latitude longitude) None]
  | GetWeatherForecast latitude longitude days =>
      [HttpGet (forecast_url latitude longitude (str_int (Z.min days 16))) None]
  | GetLocationCoordinates location_name =>
      [HttpGet (geocoding_url location_name) None]
  | GetStockPrice symbol => [TickerInfo symbol]
  | GetStockHistory symbol period =>
      if str_in period valid_periods then [TickerHistory symbol period] else []
  | SearchStocks query => [HttpGet (search_url query) (Some search_headers)]
  end.

(** The keys of the provider's [info] that [get_stock_price] reads. *)
Definition quote_source_keys : list string :=
  [ "shortName"; "currentPrice"; "regularMarketPrice"; "currency"; "dayHigh";
    "dayLow"; "fiftyTwoWeekHigh"; "fiftyTwoWeekLow"; "marketCap"; "volume";
    "averageVolume"; "trailingPE"; "dividendYield" ].

(** [None], a [bool] or a number. *)
Definition is_scalar (j : json) : bool :=
  match j with
  | JNull | JBool _ | JInt _ | JFloat _ => true
  | _ => false
  end.

Definition is_dict (j : json) : bool :=
  match j with JDict _ => true | _ => false end.

(** A JSON object or array. *)
Definition is_container (j : json) : bool :=
  match j with
  | JDict _ | JList _ => true
  | _ => false
  end.

(** An item on which the loop of [search_stocks] raises: one that is not a
    dict and on which ["symbol" in item] raises or holds. *)
Definition breaks_search (item : json) : bool :=
  negb (is_dict item)
  && match py_contains "symbol" item with
     | inr false => false
     | _ => true
     end.

(** [d.get(k)] read as the first present of two keys, else [default]. *)
Definition first_of (d : dict) (k1 k2 : string) (default : json) : json :=
  match dict_lookup d k1 with
  | Some v => v
  | None =>
      match dict_lookup d k2 with
      | Some v => v
      | None => default
      end
  end.

(** How an output entry of [search_stocks] relates to the upstream quote
    it was built from. *)
Definition match_of (quote entry : json) : Prop :=
  exists d,
    quote = JDict d
    /\ entry
       = JDict [ ("symbol", dict_get d "symbol" (JStr EmptyString));
                 ("name", first_of d "longname" "shortname" (JStr EmptyString));
                 ("exchange", dict_get d "exchange" (JStr EmptyString));
                 ("type", dict_get d "quoteType" (JStr EmptyString)) ].

(** The type error the loop of [search_stocks] raises on an item, if any:
    ["symbol" in item] raises on null, a boolean and a number; on a string
    or a list for which it holds, [item.get] raises. *)
Definition item_type_error (item : json) : option exn :=
  match item with
  | JDict _ => None
  | JStr h =>
      if str_contains "symbol" h then Some (AttributeError "str" "get")
      else None
  | JList l =>
      if existsb (is_str "symbol") l then Some (AttributeError "list" "get")
      else None
  | JNull => Some (NotContainer "NoneType")
  | JBool _ => Some (NotContainer "bool")
  | JInt _ => Some (NotContainer "int")
  | JFloat _ => Some (NotContainer "float")
  end.

(** The error of the first item that raises. *)
Fixpoint first_type_error (items : list json) : option exn :=
  match items with
  | [] => None
  | item :: rest =>
      match item_type_error item with
      | Some e => Some e
      | None => first_type_error rest
      end
  end.

(** The type error a decoded search payload leads to, if any: a payload
    that is not an object has no [get]; its "quotes" may not be iterable;
    an item may raise. *)
Definition payload_type_error (payload : json) : option exn :=
  match payload with
  | JDict doc =>
      match py_iter (dict_get doc "quotes" (JList [])) with
      | inl e => Some e
      | inr items => first_type_error items
      end
  | _ => Some (AttributeError (type_name payload) "get")
  end.

(** The error the [try] block of a tool invocation raises, if any, read
    off the world: the failure of its upstream call, or for the search a
    type error on the decoded payload.  A rejected period never enters the
    [try] block. *)
Definition try_error (c : ToolCall) (w : World) : option exn :=
  match c with
  | GetWeather latitude longitude =>
      upstream_failure w (HttpGet (weather_url latitude longitude) None)
  | GetWeatherForecast latitude longitude days =>
      upstream_failure w
        (HttpGet (forecast_url latitude longitude (str_int (Z.min days 16)))
           None)
  | GetLocationCoordinates location_name =>
      upstream_failure w (HttpGet (geocoding_url location_name) None)
  | GetStockPrice symbol => upstream_failure w (TickerInfo symbol)
  | GetStockHistory symbol period =>
      if str_in period valid_periods
      then upstream_failure w (TickerHistory symbol period)
      else None
  | SearchStocks query =>
      match http_exchange w (search_url query) (Some search_headers) with
      | inl e => Some e
      | inr payload => payload_type_error payload
      end
  end.

(** ** Text lemmas *)

Lemma append_assoc (a b c : string) : (a ++ b) ++ c = a ++ (b ++ c).
Proof. induction a as [|x a IH]; simpl; [reflexivity | now rewrite IH]. Qed.

Lemma append_nil_r (a : string) : a ++ EmptyString = a.
Proof. induction a as [|x a IH]; simpl; [reflexivity | now rewrite IH]. Qed.

Lemma length_append (a b : string) :
  String.length (a ++ b) = (String.length a + String.length b)%nat.
Proof. induction a as [|x a IH]; simpl; [reflexivity | now rewrite IH]. Qed.

Lemma prefix_append (a b : string) : String.prefix a (a ++ b) = true.
Proof.
  induction a as [|x a IH]; simpl.
  - now destruct b.
  - destruct (ascii_dec x x) as [_|n]; [exact IH | now elim n].
Qed.

Lemma prefix_split (a h : string) :
  String.prefix a h = true -> exists post, h = a ++ post.
Proof.
  revert h; induction a as [|x a IH]; intros h H.
  - now exists h.
  - destruct h as [|y h]; simpl in H; [discriminate|].
    destruct (ascii_dec x y) as [->|_]; [|discriminate].
    destruct (IH _ H) as [post ->]. now exists post.
Qed.

Lemma str_contains_intro (needle pre post : string) :
  str_contains needle (pre ++ needle ++ post) = true.
Proof.
  induction pre as [|x pre IH].
  - cbn [append]. destruct (needle ++ post) eqn:E; cbn [str_contains];
      rewrite <- E, prefix_append; reflexivity.
  - cbn [append str_contains]. rewrite IH. apply orb_true_r.
Qed.

Lemma str_contains_split (needle hay : string) :
  str_contains needle hay = true ->
  exists pre post, hay = pre ++ needle ++ post.
Proof.
  induction hay as [|x hay IH]; intros H.
  - cbn [str_contains] in H. rewrite orb_false_r in H.
    destruct (prefix_split _ _ H) as [post E]. now exists EmptyString, post.
  - cbn [str_contains] in H. apply orb_true_iff in H as [H|H].
    + destruct (prefix_split _ _ H) as [post E]. now exists EmptyString, post.
    + destruct (IH H) as (pre & post & ->). now exists (String x pre), post.
Qed.

Lemma str_in_In (s : string) (l : list string) : str_in s l = true <-> In s l.
Proof.
  unfold str_in. rewrite existsb_exists. split.
  - intros (x & Hx & E). apply String.eqb_eq in E. now subst.
  - intros H. exists s. split; [exact H | apply String.eqb_refl].
Qed.

Lemma dumps_list_head (level : nat) (l : list json) :
  exists rest, dumps_at level (JList l) = String "[" rest.
Proof. destruct l; cbn [dumps_at]; eexists; reflexivity. Qed.

(** ** Running the tools *)

(** The three pass-through tools share one shape. *)
Lemma fetch_run (url prefix : string) (w : World) :
  try_except
    (response <- requests_get url None ;;
     raise_for_status response ;;;
     document <- response_json response ;;
     ret (json_dumps document))
    (fun e => ret (prefix ++ str_exn e)) w
  = ([HttpGet url None],
     inr match http_exchange w url None with
         | inl e => prefix ++ str_exn e
         | inr document => json_dumps document
         end).
Proof.
  unfold try_except, bind, requests_get, http_exchange.
  destruct (requests_get_in w url None) as [e|r]; [reflexivity|].
  unfold raise_for_status. destruct (status_error r); [reflexivity|].
  unfold response_json, lift, ret. destruct (json_body r); reflexivity.
Qed.

Lemma get_weather_run ctx latitude longitude w :
  get_weather ctx latitude longitude w
  = ([HttpGet (weather_url latitude longitude) None],
     inr match http_exchange w (weather_url latitude longitude) None with
         | inl e => error_prefix (GetWeather latitude longitude) ++ str_exn e
         | inr document => json_dumps document
         end).
Proof. exact (fetch_run _ _ w). Qed.

Lemma get_weather_forecast_run ctx latitude longitude days w :
  let n := str_int (if 16 <? days then 16 else days) in
  get_weather_forecast ctx latitude longitude days w
  = ([HttpGet (forecast_url latitude longitude n) None],
     inr match http_exchange w (forecast_url latitude longitude n) None with
         | inl e =>
             error_prefix (GetWeatherForecast latitude longitude days)
             ++ str_exn e
         | inr document => json_dumps document
         end).
Proof. exact (fetch_run _ _ w). Qed.

Lemma get_location_coordinates_run ctx location_name w :
  get_location_coordinates ctx location_name w
  = ([HttpGet (geocoding_url location_name) None],
     inr match http_exchange w (geocoding_url location_name) None with
         | inl e =>
             error_prefix (GetLocationCoordinates location_name) ++ str_exn e
         | inr document => json_dumps document
         end).
Proof. exact (fetch_run _ _ w). Qed.

Lemma get_stock_price_run ctx symbol w :
  get_stock_price ctx symbol w
  = ([TickerInfo symbol],
     inr match ticker_info_in w symbol with
         | inl e => error_prefix (GetStockPrice symbol) ++ str_exn e
         | inr info => json_dumps (JDict (stock_quote symbol info))
         end).
Proof.
  unfold get_stock_price, try_except, bind, ticker_info, ret, error_prefix.
  destruct (ticker_info_in w symbol); [|reflexivity].
  now rewrite !append_assoc.
Qed.

Lemma get_stock_history_run ctx symbol period w :
  str_in period valid_periods = true ->
  get_stock_history ctx symbol period w
  = ([TickerHistory symbol period],
     inr match ticker_history_in w symbol period with
         | inl e => error_prefix (GetStockHistory symbol period) ++ str_exn e
         | inr rows => json_dumps (JList (history_rows rows []))
         end).
Proof.
  intros V. unfold get_stock_history. rewrite V. cbn [negb].
  unfold try_except, bind, ticker_history, ret, error_prefix.
  destruct (ticker_history_in w symbol period); [|reflexivity].
  now rewrite !append_assoc.
Qed.

Lemma get_stock_history_rejects ctx symbol period w :
  str_in period valid_periods = false ->
  get_stock_history ctx symbol period w
  = ([], inr (invalid_period_message period)).
Proof. intros V. unfold get_stock_history. rewrite V. reflexivity. Qed.

Lemma search_quotes_pure (items acc : list json) (w : World) :
  fst (search_quotes items acc w) = [].
Proof.
  revert acc. induction items as [|quote rest IH]; intros acc; [reflexivity|].
  cbn [search_quotes]. unfold bind, lift.
  destruct (py_contains "symbol" quote) as [e|[|]]; [reflexivity| |].
  - destruct (py_get quote "symbol" _); [reflexivity|].
    destruct (py_get quote "shortname" _); [reflexivity|].
    destruct (py_get quote "longname" _); [reflexivity|].
    destruct (py_get quote "exchange" _); [reflexivity|].
    destruct (py_get quote "quoteType" _); [reflexivity|].
    specialize (IH (acc ++ [JDict [("symbol", j); ("name", j1);
                                   ("exchange", j2); ("type", j3)]])%list).
    destruct (search_quotes rest _ w). cbn in IH |- *. now subst.
  - specialize (IH acc). destruct (search_quotes rest acc w).
    cbn in IH |- *. now subst.
Qed.

Lemma search_results_of_run query w :
  search_results_of query w
  = ([HttpGet (search_url query) (Some search_headers)],
     match http_exchange w (search_url query) (Some search_headers) with
     | inl e => inl e
     | inr payload => results_of_payload w payload
     end).
Proof.
  unfold search_results_of, bind, requests_get, http_exchange.
  fold (search_url query).
  destruct (requests_get_in w _ _) as [e|r]; [reflexivity|].
  unfold raise_for_status. destruct (status_error r); [reflexivity|].
  unfold ret, response_json, lift, results_of_payload.
  destruct (json_body r) as [e|payload]; [reflexivity|].
  destruct (py_get payload "quotes" _) as [e|quotes]; [reflexivity|].
  destruct (py_iter quotes) as [e|items]; [reflexivity|].
  pose proof (search_quotes_pure items [] w) as P.
  destruct (search_quotes items [] w) as [t r']. cbn in P. now subst.
Qed.

Lemma search_stocks_run ctx query w :
  search_stocks ctx query w
  = ([HttpGet (search_url query) (Some search_headers)],
     inr match snd (search_results_of query w) with
         | inl e => error_prefix (SearchStocks query) ++ str_exn e
         | inr results => json_dumps (JList results)
         end).
Proof.
  unfold search_stocks, try_except, bind. rewrite search_results_of_run.
  cbn [snd]. destruct (match http_exchange w _ _ with inl e => _ | inr p => _ end);
    reflexivity.
Qed.

Lemma search_quotes_outcome (items acc : list json) (w : World) :
  search_quotes items acc w
  = ([], match first_type_error items with
         | Some e => inl e
         | None =>
             inr (acc ++ map stock_match (filter has_symbol_field items))%list
         end).
Proof.
  revert acc. induction items as [|quote rest IH]; intros acc.
  - cbn. now rewrite app_nil_r.
  - cbn [search_quotes first_type_error]. unfold bind, lift.
    destruct quote as [| | | | h | l | d];
      cbn [py_contains item_type_error type_name filter has_symbol_field];
      try reflexivity.
    + destruct (str_contains "symbol" h); [reflexivity|]. now rewrite IH.
    + destruct (existsb (is_str "symbol") l); [reflexivity|]. now rewrite IH.
    + destruct (dict_has d "symbol"); [|now rewrite IH].
      cbn [py_get]. rewrite IH. cbn [app map stock_match].
      destruct (first_type_error rest); [reflexivity|].
      now rewrite <- app_assoc.
Qed.

Lemma results_of_payload_error (w : World) (payload : json) (e : exn) :
  payload_type_error payload = Some e -> results_of_payload w payload = inl e.
Proof.
  unfold payload_type_error, results_of_payload. intros H.
  destruct payload as [| | | | | |doc];
    try (cbn [py_get type_name] in *; congruence).
  cbn [py_get].
  destruct (py_iter (dict_get doc "quotes" (JList []))) as [e'|items];
    [congruence|].
  rewrite search_quotes_outcome. cbn [snd]. now rewrite H.
Qed.

(** ** The prompt *)

(** C9. The weather-report prompt rendered for "Paris" contains the literal
    call [get_location_coordinates(location_name="Paris")] and the literal
    sentence asking for tabular output; rendering issues no upstream call
    and depends on the location alone, neither on the context nor on the
    world; for any location the same call with that location is in the
    text. *)
Theorem weather_report_prompt_renders :
  (forall ctx w, exists text,
      weather_report_prompt ctx "Paris" w = ([], inr text)
      /\ str_contains
           ("get_location_coordinates(location_name=" ++ dq ++ "Paris" ++ dq ++ ")")
           text = true
      /\ str_contains "The expected output is tabular." text = true)
  /\ (forall ctx ctx' w w' location,
        weather_report_prompt ctx location w
        = weather_report_prompt ctx' location w')
  /\ (forall ctx w location, exists pre post,
        weather_report_prompt ctx location w
        = ([], inr (pre ++ "get_location_coordinates(location_name="
                        ++ dq ++ location ++ dq ++ ")" ++ post))).
Proof.
  split; [|split].
  - intros ctx w. eexists. split; [reflexivity|]. split; vm_compute; reflexivity.
  - reflexivity.
  - intros ctx w location. unfold weather_report_prompt, ret.
    eexists (nl ++ "    Generate a detailed weather report for " ++ location
             ++ "." ++ nl ++ nl
             ++ "    First, I need to get the coordinates for this location. Only city name should be provided:"
             ++ nl ++ "    {{"), _.
    repeat rewrite append_assoc. cbn [append nl chr].
    repeat (rewrite ?append_assoc; cbn [append]).
    reflexivity.
Qed.

(** ** Parameter checks *)

(** C2. A forecast request for more than 16 days is sent upstream with
    [forecast_days=16]; for 1 to 16 days the number is sent as given; and
    no lower bound is applied, so a number below 1 is sent as given too.
    The request is the only upstream call of the tool. *)
Theorem forecast_days_sent_upstream ctx latitude longitude days w :
  (16 < days ->
     fst (get_weather_forecast ctx latitude longitude days w)
     = [HttpGet (forecast_url latitude longitude "16") None])
  /\ (1 <= days <= 16 ->
     fst (get_weather_forecast ctx latitude longitude days w)
     = [HttpGet (forecast_url latitude longitude (str_int days)) None])
  /\ (days < 1 ->
     fst (get_weather_forecast ctx latitude longitude days w)
     = [HttpGet (forecast_url latitude longitude (str_int days)) None]).
Proof.
  assert (sent : forall n,
             (if 16 <? days then 16 else days) = n ->
             fst (get_weather_forecast ctx latitude longitude days w)
             = [HttpGet (forecast_url latitude longitude (str_int n)) None]).
  { intros n <-. unfold get_weather_forecast, try_except, bind, requests_get.
    fold (forecast_url latitude longitude
            (str_int (if 16 <? days then 16 else days))).
    destruct (requests_get_in w _ None) as [e|r]; [reflexivity|].
    unfold raise_for_status. destruct (status_error r); [reflexivity|].
    unfold response_json, lift, ret. destruct (json_body r); reflexivity. }
  repeat split; intros H.
  - change "16" with (str_int 16). apply sent.
    destruct (Z.ltb_spec 16 days); [reflexivity | lia].
  - apply sent. destruct (Z.ltb_spec 16 days); [lia | reflexivity].
  - apply sent. destruct (Z.ltb_spec 16 days); [lia | reflexivity].
Qed.

Lemma forecast_days_sent_upstream_witness :
  fst (get_weather_forecast HostContext (Finite "52.52") (Finite "13.41") 30
         (failing_world "timed out"))
  = [HttpGet (forecast_url (Finite "52.52") (Finite "13.41") "16") None]
  /\ fst (get_weather_forecast HostContext (Finite "52.52") (Finite "13.41") 7
            (failing_world "timed out"))
     = [HttpGet (forecast_url (Finite "52.52") (Finite "13.41") "7") None]
  /\ fst (get_weather_forecast HostContext (Finite "52.52") (Finite "13.41") (-3)
            (failing_world "timed out"))
     = [HttpGet (forecast_url (Finite "52.52") (Finite "13.41") "-3") None].
Proof.
  split; [|split].
  - apply (proj1 (forecast_days_sent_upstream HostContext (Finite "52.52")
                    (Finite "13.41") 30 (failing_world "timed out"))). lia.
  - apply (proj1 (proj2 (forecast_days_sent_upstream HostContext (Finite "52.52")
                    (Finite "13.41") 7 (failing_world "timed out")))). lia.
  - apply (proj2 (proj2 (forecast_days_sent_upstream HostContext (Finite "52.52")
                    (Finite "13.41") (-3) (failing_world "timed out")))). lia.
Defined.

(** C3. A period outside 1d, 5d, 1mo, 3mo, 6mo, 1y, 2y, 5y, max makes
    [get_stock_history] return its validation message, naming the period
    and the valid options, with no upstream call; that message differs
    from every provider-failure message of the tool and from every result
    the tool gives for a valid period. *)
Theorem invalid_period_short_circuits ctx symbol period w :
  ~ In period ["1d"; "5d"; "1mo"; "3mo"; "6mo"; "1y"; "2y"; "5y"; "max"] ->
  get_stock_history ctx symbol period w
  = ([], inr ("Invalid period: " ++ period
              ++ ". Valid options are: 1d, 5d, 1mo, 3mo, 6mo, 1y, 2y, 5y, max"))
  /\ (forall symbol' e,
        invalid_period_message period
        <> "Error fetching historical stock data for " ++ symbol' ++ ": "
           ++ str_exn e)
  /\ (forall ctx' symbol' period' w',
        In period' ["1d"; "5d"; "1mo"; "3mo"; "6mo"; "1y"; "2y"; "5y"; "max"] ->
        snd (get_stock_history ctx' symbol' period' w')
        <> inr (invalid_period_message period)).
Proof.
  intros Hbad. split; [|split].
  - apply get_stock_history_rejects.
    destruct (str_in period valid_periods) eqn:E; [|reflexivity].
    apply str_in_In in E. contradiction.
  - intros symbol' e. unfold invalid_period_message. cbn [append]. discriminate.
  - intros ctx' symbol' period' w' Hok.
    rewrite get_stock_history_run by (apply str_in_In; exact Hok).
    cbn [snd]. unfold invalid_period_message, error_prefix.
    destruct (ticker_history_in w' symbol' period') as [e|rows].
    + cbn [append]. discriminate.
    + unfold json_dumps.
      destruct (dumps_list_head 0 (history_rows rows [])) as [rest ->].
      cbn [append]. discriminate.
Qed.

Lemma invalid_period_short_circuits_witness :
  get_stock_history HostContext "AAPL" "1w" (failing_world "timed out")
  = ([], inr "Invalid period: 1w. Valid options are: 1d, 5d, 1mo, 3mo, 6mo, 1y, 2y, 5y, max").
Proof.
  apply (invalid_period_short_circuits HostContext "AAPL" "1w"
           (failing_world "timed out")).
  cbn [In]. intros H.
  repeat (destruct H as [H|H]; [discriminate H|]). exact H.
Defined.

(** ** Failure messages *)

(** C1, as the code has it. Every tool returns a string and never raises.
    The string is the serialized payload, or the tool's fixed prefix
    followed by the text of the error its [try] block raised, or, for
    [get_stock_history] with a rejected period, the validation message
    (which begins with "Invalid period: ", not "Error").  When an upstream
    call of the tool fails, the result is that prefix followed by the error
    text.  Every prefix begins with "Error " and ends with ": "; it names
    the subject, as "... for <symbol>: ", for [get_stock_price] and
    [get_stock_history] only.  Whenever the [try] block raises, on a
    failed upstream call or, in the search, on a type error on the decoded
    payload, the result is the prefix followed by that error's text; and
    a rejected period gives the validation message with no call. *)
Theorem failure_messages ctx c w :
  (exists tr out,
      invoke ctx c w = (tr, inr out)
      /\ ((exists payload, out = json_dumps payload)
          \/ (exists e, out = error_prefix c ++ str_exn e)
          \/ (exists symbol period,
                 c = GetStockHistory symbol period
                 /\ ~ In period valid_periods
                 /\ out = invalid_period_message period)))
  /\ (forall u e,
         In u (fst (invoke ctx c w)) ->
         upstream_failure w u = Some e ->
         snd (invoke ctx c w) = inr (error_prefix c ++ str_exn e))
  /\ (exists verb, error_prefix c = "Error " ++ verb ++ ": ")
  /\ (forall symbol err,
         c = GetStockPrice symbol
         \/ (exists period, c = GetStockHistory symbol period) ->
         framed symbol err (error_prefix c ++ err))
  /\ (forall e,
         try_error c w = Some e ->
         snd (invoke ctx c w) = inr (error_prefix c ++ str_exn e))
  /\ (forall symbol period,
         c = GetStockHistory symbol period ->
         ~ In period valid_periods ->
         invoke ctx c w = ([], inr (invalid_period_message period))).
Proof.
  split; [|split; [|split; [|split; [|split]]]].
  - destruct c; cbn [invoke].
    + rewrite get_weather_run. do 2 eexists. split; [reflexivity|].
      destruct (http_exchange w _ None); eauto.
    + rewrite get_weather_forecast_run. do 2 eexists. split; [reflexivity|].
      destruct (http_exchange w _ None); eauto.
    + rewrite get_location_coordinates_run. do 2 eexists. split; [reflexivity|].
      destruct (http_exchange w _ None); eauto.
    + rewrite get_stock_price_run. do 2 eexists. split; [reflexivity|].
      destruct (ticker_info_in w symbol); eauto.
    + destruct (str_in period valid_periods) eqn:V.
      * rewrite get_stock_history_run by exact V.
        do 2 eexists. split; [reflexivity|].
        destruct (ticker_history_in w symbol period); eauto.
      * rewrite get_stock_history_rejects by exact V.
        do 2 eexists. split; [reflexivity|]. right. right.
        exists symbol, period. repeat split.
        intros H. apply str_in_In in H. congruence.
    + rewrite search_stocks_run. do 2 eexists. split; [reflexivity|].
      destruct (snd (search_results_of query w)); eauto.
  - intros u e Hu Hfail. destruct c; cbn [invoke] in *.
    + rewrite get_weather_run in *. cbn [fst snd In] in *.
      destruct Hu as [<-|[]]. cbn [upstream_failure] in Hfail.
      destruct (http_exchange w _ None); congruence.
    + rewrite get_weather_forecast_run in *. cbn [fst snd In] in *.
      destruct Hu as [<-|[]]. cbn [upstream_failure] in Hfail.
      destruct (http_exchange w _ None); congruence.
    + rewrite get_location_coordinates_run in *. cbn [fst snd In] in *.
      destruct Hu as [<-|[]]. cbn [upstream_failure] in Hfail.
      destruct (http_exchange w _ None); congruence.
    + rewrite get_stock_price_run in *. cbn [fst snd In] in *.
      destruct Hu as [<-|[]]. cbn [upstream_failure] in Hfail.
      destruct (ticker_info_in w symbol); congruence.
    + destruct (str_in period valid_periods) eqn:V.
      * rewrite get_stock_history_run in * by exact V. cbn [fst snd In] in *.
        destruct Hu as [<-|[]]. cbn [upstream_failure] in Hfail.
        destruct (ticker_history_in w symbol period); congruence.
      * rewrite get_stock_history_rejects in Hu by exact V. destruct Hu.
    + rewrite search_stocks_run in *. cbn [fst snd In] in *.
      destruct Hu as [<-|[]]. cbn [upstream_failure] in Hfail.
      rewrite search_results_of_run. cbn [snd].
      destruct (http_exchange w _ _); congruence.
  - destruct c; cbn [error_prefix].
    + now exists "fetching weather data".
    + now exists "fetching weather forecast".
    + now exists "fetching location data".
    + now exists ("fetching stock data for " ++ symbol).
    + now exists ("fetching historical stock data for " ++ symbol).
    + now exists "searching for stocks".
  - intros symbol err [->|[period ->]]; cbn [error_prefix].
    + exists "fetching stock data". cbn [append]. now rewrite !append_assoc.
    + exists "fetching historical stock data". cbn [append].
      now rewrite !append_assoc.
  - intros e H. destruct c; cbn [invoke try_error upstream_failure] in *.
    + rewrite get_weather_run. cbn [snd].
      destruct (http_exchange w _ None); congruence.
    + rewrite get_weather_forecast_run. cbv zeta.
      replace (if 16 <? days then 16 else days) with (Z.min days 16)
        by (destruct (Z.ltb_spec 16 days); lia).
      cbn [snd]. destruct (http_exchange w _ None); congruence.
    + rewrite get_location_coordinates_run. cbn [snd].
      destruct (http_exchange w _ None); congruence.
    + rewrite get_stock_price_run. cbn [snd].
      destruct (ticker_info_in w symbol); congruence.
    + destruct (str_in period valid_periods) eqn:V; [|discriminate H].
      rewrite get_stock_history_run by exact V. cbn [snd].
      destruct (ticker_history_in w symbol period); congruence.
    + rewrite search_stocks_run, search_results_of_run. cbn [snd].
      destruct (http_exchange w _ _) as [e'|payload]; [congruence|].
      now rewrite (results_of_payload_error w payload e H).
  - intros symbol period -> Hbad. cbn [invoke].
    apply get_stock_history_rejects.
    destruct (str_in period valid_periods) eqn:V; [|reflexivity].
    apply str_in_In in V. contradiction.
Qed.

Lemma failure_messages_witness :
  snd (invoke HostContext (GetStockPrice "AAPL") (failing_world "timed out"))
  = inr "Error fetching stock data for AAPL: timed out"
  /\ framed "AAPL" "timed out" "Error fetching stock data for AAPL: timed out"
  /\ snd (invoke HostContext (SearchStocks "apple")
            (answering_world (JDict [("quotes", JList [JInt 7])]) [] []))
     = inr "Error searching for stocks: argument of type 'int' is not iterable"
  /\ invoke HostContext (GetStockHistory "AAPL" "1w")
       (failing_world "timed out")
     = ([], inr "Invalid period: 1w. Valid options are: 1d, 5d, 1mo, 3mo, 6mo, 1y, 2y, 5y, max").
Proof.
  split; [|split; [|split]].
  - apply (proj1 (proj2 (failure_messages HostContext (GetStockPrice "AAPL")
                           (failing_world "timed out")))
             (TickerInfo "AAPL") (UpstreamError "timed out")).
    + left. reflexivity.
    + reflexivity.
  - apply (proj1 (proj2 (proj2 (proj2 (failure_messages HostContext
                                         (GetStockPrice "AAPL")
                                         (failing_world "timed out")))))
             "AAPL" "timed out").
    left. reflexivity.
  - apply (proj1 (proj2 (proj2 (proj2 (proj2
             (failure_messages HostContext (SearchStocks "apple")
                (answering_world (JDict [("quotes", JList [JInt 7])]) [] []))))))
             (NotContainer "int")).
    reflexivity.
  - apply (proj2 (proj2 (proj2 (proj2 (proj2
             (failure_messages HostContext (GetStockHistory "AAPL" "1w")
                (failing_world "timed out"))))))
             "AAPL" "1w" eq_refl).
    cbn [In valid_periods]. intros H.
    repeat (destruct H as [H|H]; [discriminate H|]). exact H.
Defined.

(** C1, as stated, fails: when the weather request times out, the message
    of [get_weather] is "Error fetching weather data: timed out", which has
    no " for <subject>" part whatever the subject; and the message of
    [search_stocks] does not name the query. *)
Lemma failure_framing_counterexample :
  snd (get_weather HostContext (Finite "48.85") (Finite "2.35")
         (failing_world "timed out"))
  = inr "Error fetching weather data: timed out"
  /\ (forall subject,
        ~ framed subject "timed out" "Error fetching weather data: timed out")
  /\ snd (search_stocks HostContext "apple" (failing_world "timed out"))
     = inr "Error searching for stocks: timed out"
  /\ ~ framed "apple" "timed out" "Error searching for stocks: timed out".
Proof.
  split; [reflexivity|]. split; [|split; [reflexivity|]].
  - intros subject [verb E].
    assert (C : str_contains " for " "Error fetching weather data: timed out"
                = true).
    { rewrite E. rewrite <- (append_assoc "Error " verb).
      apply str_contains_intro. }
    vm_compute in C. discriminate C.
  - intros [verb E].
    assert (C : str_contains " for apple: "
                  "Error searching for stocks: timed out" = true).
    { rewrite E. rewrite <- (append_assoc "Error " verb).
      change (" for " ++ "apple" ++ ": " ++ "timed out")
        with (" for apple: " ++ "timed out").
      apply str_contains_intro. }
    vm_compute in C. discriminate C.
Qed.

(** ** The stock quote *)

Lemma concat_member (sep : string) (item : string * json -> string)
    (d : dict) (k : string) (v : json) :
  dict_lookup d k = Some v ->
  exists pre post, String.concat sep (map item d) = pre ++ item (k, v) ++ post.
Proof.
  induction d as [|[k' v'] d IH]; intros H; [discriminate|].
  cbn [dict_lookup] in H. destruct (String.eqb_spec k' k) as [->|_].
  - injection H as ->. exists EmptyString. cbn [map String.concat append].
    destruct (map item d); eexists; [symmetry; apply append_nil_r | reflexivity].
  - destruct (IH H) as (pre & post & E). cbn [map String.concat].
    destruct d as [|kv d]; [discriminate|].
    cbn [map] in *. rewrite E.
    exists (item (k', v') ++ sep ++ pre), post. now rewrite !append_assoc.
Qed.

(** A member of a dict shows in the serialized text as its key, the key
    separator and its serialized value. *)
Lemma dumps_dict_member (level : nat) (d : dict) (k : string) (v : json) :
  dict_lookup d k = Some v ->
  exists pre post,
    dumps_at level (JDict d)
    = pre ++ (json_string k ++ ": " ++ dumps_at (S level) v) ++ post.
Proof.
  intros H.
  destruct (concat_member ("," ++ nl ++ indent (S level))
              (fun kv => json_string (fst kv) ++ ": "
                         ++ dumps_at (S level) (snd kv)) d k v H)
    as (pre & post & E).
  destruct d as [|kv d]; [discriminate|].
  cbn [dumps_at]. unfold join. cbn [map] in *. rewrite E. cbn [fst snd].
  exists ("{" ++ nl ++ indent (S level) ++ pre),
         (post ++ nl ++ indent level ++ "}").
  now rewrite !append_assoc.
Qed.

(** C4, as the code has it. For every [info] the provider returns,
    [get_stock_price] succeeds with the serialized quote, whatever fields
    are missing.  A field among name, day high/low, 52-week high/low, market
    cap, volume, average volume, P/E ratio and dividend yield is "N/A" when
    [info] omits its source key; currency is "USD" when [info] omits it; a
    source key that is present gives the field its value. *)
Theorem stock_quote_fallbacks ctx symbol w info :
  ticker_info_in w symbol = inr info ->
  get_stock_price ctx symbol w
  = ([TickerInfo symbol], inr (json_dumps (JDict (stock_quote symbol info))))
  /\ (forall field source,
        In (field, source) sentinel_fields ->
        dict_lookup info source = None ->
        dict_lookup (stock_quote symbol info) field = Some (JStr "N/A"))
  /\ (dict_lookup info "currency" = None ->
      dict_lookup (stock_quote symbol info) "currency" = Some (JStr "USD"))
  /\ (forall field source v,
        In (field, source) (("currency", "currency") :: sentinel_fields) ->
        dict_lookup info source = Some v ->
        dict_lookup (stock_quote symbol info) field = Some v).
Proof.
  intros Hinfo. split; [|split; [|split]].
  - rewrite get_stock_price_run, Hinfo. reflexivity.
  - intros field source Hin Hnone. cbn [In sentinel_fields] in Hin.
    repeat (destruct Hin as [Hin|Hin];
            [injection Hin as <- <-; cbn; unfold dict_get; now rewrite Hnone|]).
    destruct Hin.
  - intros Hnone. cbn. unfold dict_get. now rewrite Hnone.
  - intros field source v Hin Hsome. cbn [In sentinel_fields] in Hin.
    repeat (destruct Hin as [Hin|Hin];
            [injection Hin as <- <-; cbn; unfold dict_get; now rewrite Hsome|]).
    destruct Hin.
Qed.

Lemma stock_quote_fallbacks_witness :
  get_stock_price HostContext "AAPL" (answering_world JNull [] [])
  = ([TickerInfo "AAPL"], inr (json_dumps (JDict (stock_quote "AAPL" []))))
  /\ dict_lookup (stock_quote "AAPL" []) "pe_ratio" = Some (JStr "N/A").
Proof.
  split.
  - apply (stock_quote_fallbacks HostContext "AAPL"
             (answering_world JNull [] []) []). reflexivity.
  - apply (proj1 (proj2 (stock_quote_fallbacks HostContext "AAPL"
                           (answering_world JNull [] []) [] eq_refl))
             "pe_ratio" "trailingPE").
    + cbn. tauto.
    + reflexivity.
Defined.

(** C4, as stated, fails for the currency: with an [info] that omits every
    key the quote's currency is "USD", not the "N/A" sentinel. *)
Lemma currency_sentinel_counterexample :
  get_stock_price HostContext "AAPL" (answering_world JNull [] [])
  = ([TickerInfo "AAPL"], inr (json_dumps (JDict (stock_quote "AAPL" []))))
  /\ dict_lookup [] "currency" = None
  /\ dict_lookup (stock_quote "AAPL" []) "currency" = Some (JStr "USD")
  /\ dict_lookup (stock_quote "AAPL" []) "currency" <> Some (JStr "N/A")
  /\ str_contains (dq ++ "currency" ++ dq ++ ": " ++ dq ++ "USD" ++ dq)
       (json_dumps (JDict (stock_quote "AAPL" []))) = true
  /\ str_contains (dq ++ "currency" ++ dq ++ ": " ++ dq ++ "N/A" ++ dq)
       (json_dumps (JDict (stock_quote "AAPL" []))) = false.
Proof.
  repeat split; try reflexivity. discriminate.
Qed.

(** C5. When the provider's [info] omits [currentPrice] but has
    [regularMarketPrice], the quote's price is the regular market price;
    when [currentPrice] is present, the price is that value.  The price is
    in the returned text under the key "price". *)
Theorem price_falls_back_to_regular_market ctx symbol w info :
  ticker_info_in w symbol = inr info ->
  (forall v,
      dict_lookup info "currentPrice" = None ->
      dict_lookup info "regularMarketPrice" = Some v ->
      dict_lookup (stock_quote symbol info) "price" = Some v)
  /\ (forall v,
        dict_lookup info "currentPrice" = Some v ->
        dict_lookup (stock_quote symbol info) "price" = Some v)
  /\ exists v pre post,
       dict_lookup (stock_quote symbol info) "price" = Some v
       /\ get_stock_price ctx symbol w
          = ([TickerInfo symbol],
             inr (pre ++ (dq ++ "price" ++ dq ++ ": " ++ dumps_at 1 v) ++ post)).
Proof.
  intros Hinfo. split; [|split].
  - intros v Hcur Hreg. cbn. unfold dict_get. now rewrite Hcur, Hreg.
  - intros v Hcur. cbn. unfold dict_get. now rewrite Hcur.
  - pose (v := dict_get info "currentPrice"
                 (dict_get info "regularMarketPrice" (JStr "N/A"))).
    assert (L : dict_lookup (stock_quote symbol info) "price" = Some v)
      by reflexivity.
    destruct (dumps_dict_member 0 _ _ _ L) as (pre & post & E).
    exists v, pre, post. split; [exact L|].
    rewrite get_stock_price_run, Hinfo. unfold json_dumps. rewrite E.
    reflexivity.
Qed.

Lemma price_falls_back_to_regular_market_witness :
  dict_lookup
    (stock_quote "AAPL" [("regularMarketPrice", JFloat (Finite "189.5"))])
    "price"
  = Some (JFloat (Finite "189.5"))
  /\ dict_lookup
       (stock_quote "AAPL" [("regularMarketPrice", JFloat (Finite "189.5"));
                            ("currentPrice", JFloat (Finite "190.25"))])
       "price"
     = Some (JFloat (Finite "190.25")).
Proof.
  split.
  - apply (proj1 (price_falls_back_to_regular_market HostContext "AAPL"
             (answering_world JNull
                [("regularMarketPrice", JFloat (Finite "189.5"))] [])
             [("regularMarketPrice", JFloat (Finite "189.5"))] eq_refl));
      reflexivity.
  - apply (proj1 (proj2 (price_falls_back_to_regular_market HostContext "AAPL"
             (answering_world JNull
                [("regularMarketPrice", JFloat (Finite "189.5"));
                 ("currentPrice", JFloat (Finite "190.25"))] [])
             [("regularMarketPrice", JFloat (Finite "189.5"));
              ("currentPrice", JFloat (Finite "190.25"))] eq_refl)));
      reflexivity.
Defined.

(** C10. Whatever [info] the provider returns, also an empty one or one
    with a "symbol" of its own, the successful result of [get_stock_price]
    has exactly one "symbol" field, its first, and its value is the
    caller's symbol: the text opens with that field. *)
Theorem symbol_echoed_verbatim ctx symbol w info :
  ticker_info_in w symbol = inr info ->
  exists rest tail,
    stock_quote symbol info = ("symbol", JStr symbol) :: rest
    /\ ~ In "symbol" (map fst rest)
    /\ dict_lookup (stock_quote symbol info) "symbol" = Some (JStr symbol)
    /\ get_stock_price ctx symbol w
       = ([TickerInfo symbol],
          inr ("{" ++ nl ++ "  " ++ dq ++ "symbol" ++ dq ++ ": "
               ++ json_string symbol ++ "," ++ tail)).
Proof.
  intros Hinfo. do 2 eexists. split; [reflexivity|]. split; [|split].
  - cbn [map fst In]. intros H.
    repeat (destruct H as [H|H]; [discriminate H|]). exact H.
  - reflexivity.
  - rewrite get_stock_price_run, Hinfo. unfold json_dumps, stock_quote.
    cbn [dumps_at map join String.concat fst snd indent].
    do 2 f_equal. cbn [append]. rewrite !append_assoc. cbn [append].
    reflexivity.
Qed.

Lemma symbol_echoed_verbatim_witness :
  dict_lookup (stock_quote "AAPL" [("symbol", JStr "MSFT")]) "symbol"
  = Some (JStr "AAPL").
Proof.
  destruct (symbol_echoed_verbatim HostContext "AAPL"
              (answering_world JNull [("symbol", JStr "MSFT")] [])
              [("symbol", JStr "MSFT")] eq_refl)
    as (rest & tail & _ & _ & L & _).
  exact L.
Defined.

(** ** Search *)

Lemma search_quotes_success (items acc : list json) (w : World)
    (results : list json) :
  snd (search_quotes items acc w) = inr results ->
  results = (acc ++ map stock_match (filter has_symbol_field items))%list.
Proof.
  revert acc. induction items as [|quote rest IH]; intros acc H.
  - cbn in H. injection H as <-. cbn. now rewrite app_nil_r.
  - cbn [search_quotes] in H. unfold bind, lift in H.
    destruct quote as [| | | | h | l | d]; cbn [py_contains] in H;
      try discriminate H; cbn [filter has_symbol_field].
    + destruct (str_contains "symbol" h); [discriminate H|].
      destruct (search_quotes rest acc w) eqn:E. apply IH. now rewrite E.
    + destruct (existsb (is_str "symbol") l); [discriminate H|].
      destruct (search_quotes rest acc w) eqn:E. apply IH. now rewrite E.
    + destruct (dict_has d "symbol").
      * cbn [py_get] in H.
        destruct (search_quotes rest _ w) eqn:E in H.
        cbn [map]. rewrite (IH _ ltac:(rewrite E; exact H)).
        now rewrite <- app_assoc.
      * destruct (search_quotes rest acc w) eqn:E. apply IH. now rewrite E.
Qed.

Lemma stock_match_has_symbol (items : list json) :
  Forall (fun entry => exists v rest, entry = JDict (("symbol", v) :: rest))
    (map stock_match (filter has_symbol_field items)).
Proof.
  induction items as [|quote rest IH]; [constructor|].
  cbn [filter]. destruct (has_symbol_field quote) eqn:E; [|exact IH].
  destruct quote; try discriminate E. cbn [map]. constructor; [|exact IH].
  cbn [stock_match]. eauto.
Qed.

(** C6. When [search_stocks] succeeds, every entry of its output is a dict
    with a "symbol" field: the output holds one match for each upstream
    quote that has a "symbol" key, in order, and nothing for the others. *)
Theorem search_results_carry_symbol ctx query w results :
  snd (search_results_of query w) = inr results ->
  search_stocks ctx query w
  = ([HttpGet (search_url query) (Some search_headers)],
     inr (json_dumps (JList results)))
  /\ Forall (fun entry => exists v rest, entry = JDict (("symbol", v) :: rest))
       results
  /\ exists payload quotes items,
       http_exchange w (search_url query) (Some search_headers) = inr payload
       /\ py_get payload "quotes" (JList []) = inr quotes
       /\ py_iter quotes = inr items
       /\ results = map stock_match (filter has_symbol_field items).
Proof.
  intros H.
  assert (R : exists payload quotes items,
             http_exchange w (search_url query) (Some search_headers)
             = inr payload
             /\ py_get payload "quotes" (JList []) = inr quotes
             /\ py_iter quotes = inr items
             /\ results = map stock_match (filter has_symbol_field items)).
  { rewrite search_results_of_run in H. cbn [snd] in H.
    destruct (http_exchange w _ _) as [e|payload]; [discriminate H|].
    unfold results_of_payload in H.
    destruct (py_get payload "quotes" _) as [e|quotes] eqn:G; [discriminate H|].
    destruct (py_iter quotes) as [e|items] eqn:I; [discriminate H|].
    exists payload, quotes, items. repeat split; try assumption.
    apply (search_quotes_success items [] w results H). }
  split; [|split; [|exact R]].
  - rewrite search_stocks_run, H. reflexivity.
  - destruct R as (_ & _ & items & _ & _ & _ & ->).
    apply stock_match_has_symbol.
Qed.

Lemma search_results_carry_symbol_witness :
  search_stocks HostContext "apple"
    (answering_world
       (JDict [("quotes",
                JList [ JDict [("shortname", JStr "No symbol here")];
                        JDict [("symbol", JStr "AAPL");
                               ("shortname", JStr "Apple Inc.")] ])])
       [] [])
  = ([HttpGet (search_url "apple") (Some search_headers)],
     inr (json_dumps
            (JList [ JDict [ ("symbol", JStr "AAPL");
                             ("name", JStr "Apple Inc.");
                             ("exchange", JStr EmptyString);
                             ("type", JStr EmptyString) ] ]))).
Proof.
  apply (search_results_carry_symbol HostContext "apple"
           (answering_world
              (JDict [("quotes",
                       JList [ JDict [("shortname", JStr "No symbol here")];
                               JDict [("symbol", JStr "AAPL");
                                      ("shortname", JStr "Apple Inc.")] ])])
              [] [])).
  reflexivity.
Defined.

(** ** Geocoding *)

(** C7, as the code has it. A geocoding response that has a good status
    and decodes as JSON is returned serialized as it is, as a success; the
    tool builds no list of its own.  For a document that is a JSON object
    or array the result is not the tool's failure message.  An empty list
    of candidates is in the result when the upstream document holds one,
    under the key the upstream gave it or alone. *)
Theorem geocoding_document_passes_through ctx location_name w document :
  http_exchange w (geocoding_url location_name) None = inr document ->
  get_location_coordinates ctx location_name w
  = ([HttpGet (geocoding_url location_name) None],
     inr (json_dumps document))
  /\ (is_container document = true ->
      forall e,
        snd (get_location_coordinates ctx location_name w)
        <> inr ("Error fetching location data: " ++ e))
  /\ (forall doc key,
        document = JDict doc ->
        dict_lookup doc key = Some (JList []) ->
        exists pre post,
          snd (get_location_coordinates ctx location_name w)
          = inr (pre ++ (json_string key ++ ": []") ++ post))
  /\ (document = JList [] ->
      snd (get_location_coordinates ctx location_name w) = inr "[]").
Proof.
  intros H.
  assert (Run : get_location_coordinates ctx location_name w
                = ([HttpGet (geocoding_url location_name) None],
                   inr (json_dumps document)))
    by (rewrite get_location_coordinates_run, H; reflexivity).
  split; [exact Run|]. rewrite Run. cbn [snd]. split; [|split].
  - intros K e E. injection E as E. unfold json_dumps in E.
    destruct document as [| | | | |l|d]; try discriminate K.
    + destruct l; cbn [dumps_at append] in E; discriminate E.
    + destruct d; cbn [dumps_at append] in E; discriminate E.
  - intros doc key -> L.
    destruct (dumps_dict_member 0 doc key (JList []) L) as (pre & post & E).
    exists pre, post. unfold json_dumps. now rewrite E.
  - intros ->. reflexivity.
Qed.

Lemma geocoding_document_passes_through_witness :
  get_location_coordinates HostContext "Atlantis"
    (answering_world
       (JDict [("results", JList []);
               ("generationtime_ms", JFloat (Finite "0.5"))]) [] [])
  = ([HttpGet (geocoding_url "Atlantis") None],
     inr ("{" ++ nl ++ "  " ++ dq ++ "results" ++ dq ++ ": []," ++ nl
          ++ "  " ++ dq ++ "generationtime_ms" ++ dq ++ ": 0.5" ++ nl ++ "}"))
  /\ (forall e,
        snd (get_location_coordinates HostContext "Atlantis"
               (answering_world
                  (JDict [("results", JList []);
                          ("generationtime_ms", JFloat (Finite "0.5"))])
                  [] []))
        <> inr ("Error fetching location data: " ++ e))
  /\ exists pre post,
       snd (get_location_coordinates HostContext "Atlantis"
              (answering_world
                 (JDict [("results", JList []);
                         ("generationtime_ms", JFloat (Finite "0.5"))])
                 [] []))
       = inr (pre ++ (json_string "results" ++ ": []") ++ post).
Proof.
  pose proof (geocoding_document_passes_through HostContext "Atlantis"
           (answering_world
              (JDict [("results", JList []);
                      ("generationtime_ms", JFloat (Finite "0.5"))]) [] [])
           (JDict [("results", JList []);
                   ("generationtime_ms", JFloat (Finite "0.5"))]) eq_refl)
    as (Run & Success & Empty & _).
  split; [exact Run|]. split; [exact (Success eq_refl)|].
  exact (Empty _ "results" eq_refl eq_refl).
Defined.

(** C7, as stated, fails: a zero-match answer that has no list member, as
    an object with the generation time alone, is returned as it is, a
    success whose payload holds no list, empty or not. *)
Lemma zero_matches_counterexample :
  get_location_coordinates HostContext "Atlantis"
    (answering_world (JDict [("generationtime_ms", JFloat (Finite "0.5"))])
       [] [])
  = ([HttpGet (geocoding_url "Atlantis") None],
     inr ("{" ++ nl ++ "  " ++ dq ++ "generationtime_ms" ++ dq ++ ": 0.5"
          ++ nl ++ "}"))
  /\ str_contains "[]"
       ("{" ++ nl ++ "  " ++ dq ++ "generationtime_ms" ++ dq ++ ": 0.5"
        ++ nl ++ "}") = false
  /\ str_contains "["
       ("{" ++ nl ++ "  " ++ dq ++ "generationtime_ms" ++ dq ++ ": 0.5"
        ++ nl ++ "}") = false.
Proof. repeat split. Qed.

(** ** History *)

Lemma In_Z_range (lo n x : Z) :
  lo <= x < lo + n -> In x (Z_range lo n).
Proof.
  intros H. unfold Z_range. apply in_map_iff.
  exists (Z.to_nat (x - lo)). split; [lia|]. apply in_seq. lia.
Qed.

Lemma pad2_two_digits (n : Z) : 0 <= n <= 99 -> two_digits (pad2 n) = true.
Proof.
  intros H.
  assert (A : forallb (fun n => two_digits (pad2 n)) (Z_range 0 100) = true)
    by (vm_compute; reflexivity).
  rewrite forallb_forall in A. apply A, In_Z_range. lia.
Qed.

Lemma pad2_chars (n : Z) :
  0 <= n <= 99 ->
  exists a b,
    pad2 n = String a (String b EmptyString)
    /\ is_digit a = true /\ is_digit b = true.
Proof.
  intros H. pose proof (pad2_two_digits n H) as T.
  destruct (pad2 n) as [|a [|b [|c r]]]; try discriminate T.
  cbn in T. apply andb_true_iff in T. exists a, b. tauto.
Qed.

Lemma pad2_increasing (a b : Z) :
  0 <= a -> a < b -> b <= 99 -> String.compare (pad2 a) (pad2 b) = Lt.
Proof.
  intros Ha Hab Hb.
  assert (A : forallb
                (fun a => forallb
                   (fun b => if a <? b
                             then match String.compare (pad2 a) (pad2 b) with
                                  | Lt => true
                                  | _ => false
                                  end
                             else true)
                   (Z_range 0 100))
                (Z_range 0 100) = true)
    by (vm_compute; reflexivity).
  rewrite forallb_forall in A.
  specialize (A a ltac:(apply In_Z_range; lia)).
  rewrite forallb_forall in A.
  specialize (A b ltac:(apply In_Z_range; lia)).
  destruct (Z.ltb_spec a b); [|lia].
  now destruct (String.compare (pad2 a) (pad2 b)).
Qed.

(** A year of four digits is rendered as its century and its year of the
    century, two digits each. *)
Lemma year_text (y : Z) :
  1000 <= y <= 9999 -> str_int y = pad2 (y / 100) ++ pad2 (y mod 100).
Proof.
  intros H.
  assert (A : forallb
                (fun y => String.eqb (str_int y)
                            (pad2 (y / 100) ++ pad2 (y mod 100)))
                (Z_range 1000 9000) = true)
    by (vm_compute; reflexivity).
  rewrite forallb_forall in A. apply String.eqb_eq, A, In_Z_range. lia.
Qed.

Lemma compare_refl (s : string) : String.compare s s = Eq.
Proof.
  induction s as [|c s IH]; cbn [String.compare]; [reflexivity|].
  unfold Ascii.compare. now rewrite N.compare_refl.
Qed.

Lemma compare_append (a a' b b' : string) :
  String.length a = String.length a' ->
  String.compare (a ++ b) (a' ++ b')
  = match String.compare a a' with
    | Eq => String.compare b b'
    | c => c
    end.
Proof.
  revert a'. induction a as [|x a IH]; intros [|x' a'] L;
    try discriminate L; [reflexivity|].
  cbn [append String.compare]. destruct (Ascii.compare x x'); try reflexivity.
  apply IH. now injection L.
Qed.

Lemma pad2_length (n : Z) : 0 <= n <= 99 -> String.length (pad2 n) = 2%nat.
Proof. intros H. destruct (pad2_chars n H) as (a & b & -> & _). reflexivity. Qed.

(** The date text in chunks of two digits. *)
Lemma strftime_chunks (t : Timestamp) :
  valid_date t ->
  strftime_Ymd t
  = pad2 (year t / 100) ++ pad2 (year t mod 100) ++ "-"
    ++ pad2 (month t) ++ "-" ++ pad2 (day t).
Proof.
  intros (Hy & _). unfold strftime_Ymd. rewrite (year_text _ Hy).
  now rewrite append_assoc.
Qed.

Lemma strftime_shape (t : Timestamp) :
  valid_date t -> is_Ymd (strftime_Ymd t) = true.
Proof.
  intros V. rewrite (strftime_chunks t V). destruct V as (Hy & Hm & Hd).
  destruct (pad2_chars (year t / 100)) as (y1 & y2 & -> & Y1 & Y2);
    [Z.div_mod_to_equations; lia|].
  destruct (pad2_chars (year t mod 100)) as (y3 & y4 & -> & Y3 & Y4);
    [Z.div_mod_to_equations; lia|].
  destruct (pad2_chars (month t)) as (m1 & m2 & -> & M1 & M2); [lia|].
  destruct (pad2_chars (day t)) as (d1 & d2 & -> & D1 & D2); [lia|].
  cbn [append is_Ymd]. rewrite Y1, Y2, Y3, Y4, M1, M2, D1, D2. reflexivity.
Qed.

(** The date text orders as the calendar does. *)
Lemma strftime_increasing (a b : Timestamp) :
  valid_date a -> valid_date b -> date_lt a b ->
  str_lt (strftime_Ymd a) (strftime_Ymd b).
Proof.
  intros Va Vb Hlt. unfold str_lt, String.ltb.
  rewrite (strftime_chunks a Va), (strftime_chunks b Vb).
  destruct Va as (Ya & Ma & Da), Vb as (Yb & Mb & Db).
  assert (La : 10 <= year a / 100 <= 99 /\ 0 <= year a mod 100 <= 99)
    by (Z.div_mod_to_equations; lia).
  assert (Lb : 10 <= year b / 100 <= 99 /\ 0 <= year b mod 100 <= 99)
    by (Z.div_mod_to_equations; lia).
  rewrite compare_append by (rewrite !pad2_length; lia).
  destruct (Z.lt_trichotomy (year a / 100) (year b / 100)) as [C|[C|C]].
  { now rewrite pad2_increasing by lia. }
  2:{ exfalso. unfold date_lt in Hlt. Z.div_mod_to_equations. lia. }
  rewrite C, compare_refl.
  rewrite compare_append by (rewrite !pad2_length; lia).
  destruct (Z.lt_trichotomy (year a mod 100) (year b mod 100)) as [D|[D|D]].
  { now rewrite pad2_increasing by lia. }
  2:{ exfalso. unfold date_lt in Hlt. Z.div_mod_to_equations. lia. }
  rewrite D, compare_refl.
  assert (Y : year a = year b) by (Z.div_mod_to_equations; lia).
  rewrite (compare_append "-" "-") by reflexivity. cbn [String.compare Ascii.compare].
  change (String.compare "-" "-") with Eq. cbv iota.
  rewrite compare_append by (rewrite !pad2_length; lia).
  destruct Hlt as [Hlt|[_ [Hlt|[Hm Hlt]]]]; [lia| |].
  { now rewrite pad2_increasing by lia. }
  rewrite Hm, compare_refl.
  rewrite (compare_append "-" "-") by reflexivity.
  change (String.compare "-" "-") with Eq. cbv iota.
  now rewrite pad2_increasing by lia.
Qed.

(** The loop appends one point per row, in the rows' order. *)
Lemma history_rows_map (rows : list Row) (data : list json) :
  history_rows rows data = (data ++ map history_point rows)%list.
Proof.
  revert data. induction rows as [|row rest IH]; intros data; cbn.
  - now rewrite app_nil_r.
  - rewrite IH. now rewrite <- app_assoc.
Qed.

Lemma dates_of_points (rows : list Row) :
  dates_of (map history_point rows)
  = map (fun row => strftime_Ymd (row_date row)) rows.
Proof.
  induction rows as [|row rest IH]; [reflexivity|].
  cbn [map]. rewrite <- IH. reflexivity.
Qed.

Lemma dates_increasing (rows : list Row) :
  Forall (fun row => valid_date (row_date row)) rows ->
  Sorted date_lt (map row_date rows) ->
  Sorted str_lt (map (fun row => strftime_Ymd (row_date row)) rows).
Proof.
  induction rows as [|row rest IH]; intros V S; [constructor|].
  inversion V as [|? ? Vrow Vrest]; subst.
  inversion S as [|? ? Srest Hd]; subst.
  cbn [map]. constructor; [now apply IH|].
  destruct rest as [|next rest]; [constructor|].
  cbn [map] in *. constructor.
  inversion Hd; subst. inversion Vrest; subst.
  now apply strftime_increasing.
Qed.

(** C8, as the code has it. For a valid period, [get_stock_history] emits
    one point per row of the provider's series, in the provider's order,
    each with its date as text; a date with a four-digit year is rendered
    as YYYY-MM-DD; and when the provider's dates are strictly increasing,
    so are the dates of the points.  The tool itself neither sorts nor
    removes duplicates. *)
Theorem history_points_follow_provider ctx symbol period w rows :
  In period valid_periods ->
  ticker_history_in w symbol period = inr rows ->
  get_stock_history ctx symbol period w
  = ([TickerHistory symbol period],
     inr (json_dumps (JList (map history_point rows))))
  /\ dates_of (map history_point rows)
     = map (fun row => strftime_Ymd (row_date row)) rows
  /\ (Forall (fun row => valid_date (row_date row)) rows ->
      Forall (fun date => is_Ymd date = true)
        (dates_of (map history_point rows)))
  /\ (Forall (fun row => valid_date (row_date row)) rows ->
      Sorted date_lt (map row_date rows) ->
      Sorted str_lt (dates_of (map history_point rows))).
Proof.
  intros Hp Hrows. split; [|split; [|split]].
  - rewrite get_stock_history_run by (apply str_in_In; exact Hp).
    rewrite Hrows, history_rows_map. reflexivity.
  - apply dates_of_points.
  - intros V. rewrite dates_of_points. apply Forall_map.
    revert V. apply Forall_impl. intros row. apply strftime_shape.
  - intros V S. rewrite dates_of_points. now apply dates_increasing.
Qed.

Lemma history_points_follow_provider_witness :
  get_stock_history HostContext "AAPL" "5d"
    (answering_world JNull [] [row_on 2024 1 2; row_on 2024 1 3])
  = ([TickerHistory "AAPL" "5d"],
     inr (json_dumps
            (JList (map history_point [row_on 2024 1 2; row_on 2024 1 3]))))
  /\ dates_of (map history_point [row_on 2024 1 2; row_on 2024 1 3])
     = ["2024-01-02"; "2024-01-03"]
  /\ Sorted str_lt
       (dates_of (map history_point [row_on 2024 1 2; row_on 2024 1 3])).
Proof.
  assert (P : In "5d" valid_periods) by (cbn; tauto).
  assert (V : Forall (fun row => valid_date (row_date row))
                [row_on 2024 1 2; row_on 2024 1 3])
    by (repeat constructor; cbn [row_on row_date year month day]; lia).
  assert (S : Sorted date_lt (map row_date [row_on 2024 1 2; row_on 2024 1 3])).
  { cbn [map].
    apply Sorted_cons;
      [apply Sorted_cons; [apply Sorted_nil | apply HdRel_nil]
      | apply HdRel_cons; unfold date_lt;
        cbn [row_on row_date year month day]; lia]. }
  pose proof (history_points_follow_provider HostContext "AAPL" "5d"
                (answering_world JNull [] [row_on 2024 1 2; row_on 2024 1 3])
                [row_on 2024 1 2; row_on 2024 1 3] P eq_refl)
    as (Run & Dates & _ & Incr).
  split; [exact Run|]. split; [exact Dates|]. exact (Incr V S).
Defined.

(** C8, as stated, fails: a provider series whose rows come latest first,
    or with a day twice, is emitted as it comes, so the dates of the
    points are not strictly increasing. *)
Lemma history_order_counterexample :
  get_stock_history HostContext "AAPL" "5d"
    (answering_world JNull [] [row_on 2024 1 3; row_on 2024 1 2])
  = ([TickerHistory "AAPL" "5d"],
     inr (json_dumps
            (JList (map history_point [row_on 2024 1 3; row_on 2024 1 2]))))
  /\ dates_of (map history_point [row_on 2024 1 3; row_on 2024 1 2])
     = ["2024-01-03"; "2024-01-02"]
  /\ ~ Sorted str_lt
         (dates_of (map history_point [row_on 2024 1 3; row_on 2024 1 2]))
  /\ dates_of (map history_point [row_on 2024 1 2; row_on 2024 1 2])
     = ["2024-01-02"; "2024-01-02"]
  /\ ~ Sorted str_lt
         (dates_of (map history_point [row_on 2024 1 2; row_on 2024 1 2])).
Proof.
  split; [reflexivity|]. split; [reflexivity|]. split; [|split; [reflexivity|]].
  - intros S. inversion S as [|? ? _ Hd]; subst.
    inversion Hd as [|? ? C]; subst. vm_compute in C. discriminate C.
  - intros S. inversion S as [|? ? _ Hd]; subst.
    inversion Hd as [|? ? C]; subst. vm_compute in C. discriminate C.
Qed.

(** ** Further properties of the tools *)

Lemma clamp_min (days : Z) : (if 16 <? days then 16 else days) = Z.min days 16.
Proof. destruct (Z.ltb_spec 16 days); lia. Qed.

(** X1. Whatever the upstream answers or raises, a tool issues exactly the
    one call of its kind and none after a failure (no retry, no second
    source); [get_stock_history] with a rejected period issues none. *)
Theorem tools_issue_their_one_call ctx c w :
  fst (invoke ctx c w) = calls_of c /\ (List.length (calls_of c) <= 1)%nat.
Proof.
  split.
  - destruct c; cbn [invoke calls_of].
    + now rewrite get_weather_run.
    + rewrite get_weather_forecast_run. cbv zeta. now rewrite clamp_min.
    + now rewrite get_location_coordinates_run.
    + now rewrite get_stock_price_run.
    + destruct (str_in period valid_periods) eqn:V.
      * now rewrite get_stock_history_run.
      * now rewrite get_stock_history_rejects.
    + now rewrite search_stocks_run.
  - destruct c; cbn [calls_of List.length]; try lia.
    destruct (str_in period valid_periods); cbn [List.length]; lia.
Qed.

Lemma tools_issue_their_one_call_witness :
  fst (invoke HostContext (SearchStocks "apple") (failing_world "timed out"))
  = [HttpGet (search_url "apple") (Some search_headers)]
  /\ fst (invoke HostContext (GetStockHistory "AAPL" "1w")
            (answering_world JNull [] []))
     = [].
Proof.
  split.
  - apply (proj1 (tools_issue_their_one_call HostContext (SearchStocks "apple")
                    (failing_world "timed out"))).
  - apply (proj1 (tools_issue_their_one_call HostContext
                    (GetStockHistory "AAPL" "1w")
                    (answering_world JNull [] []))).
Defined.

(** X2. A response with a bad status is a failure carrying the status
    error's text, whatever its body holds: the body is not decoded, even
    when it is valid JSON. *)
Theorem bad_status_is_failure ctx c w url hdrs r e :
  In (HttpGet url hdrs) (calls_of c) ->
  requests_get_in w url hdrs = inr r ->
  status_error r = Some e ->
  invoke ctx c w = ([HttpGet url hdrs], inr (error_prefix c ++ str_exn e)).
Proof.
  intros Hin Hget Hstatus.
  assert (X : http_exchange w url hdrs = inl e)
    by (unfold http_exchange; now rewrite Hget, Hstatus).
  destruct c; cbn [calls_of In] in Hin; cbn [invoke].
  - destruct Hin as [Hin|[]]. injection Hin as <- <-.
    now rewrite get_weather_run, X.
  - destruct Hin as [Hin|[]]. injection Hin as <- <-.
    rewrite get_weather_forecast_run. cbv zeta. rewrite clamp_min. now rewrite X.
  - destruct Hin as [Hin|[]]. injection Hin as <- <-.
    now rewrite get_location_coordinates_run, X.
  - destruct Hin as [Hin|[]]. discriminate Hin.
  - destruct (str_in period valid_periods); cbn [In] in Hin;
      [destruct Hin as [Hin|[]]; discriminate Hin | destruct Hin].
  - destruct Hin as [Hin|[]]. injection Hin as <- <-.
    rewrite search_stocks_run, search_results_of_run. cbn [snd]. now rewrite X.
Qed.

Lemma bad_status_is_failure_witness :
  invoke HostContext (GetLocationCoordinates "Paris")
    (mkWorld
       (fun _ _ =>
          inr (mkResponse (Some (UpstreamError "404 Client Error"))
                 (inr (JDict [("results", JList [])]))))
       (fun _ => inr []) (fun _ _ => inr []))
  = ([HttpGet (geocoding_url "Paris") None],
     inr "Error fetching location data: 404 Client Error").
Proof.
  apply (bad_status_is_failure HostContext (GetLocationCoordinates "Paris")
           (mkWorld
              (fun _ _ =>
                 inr (mkResponse (Some (UpstreamError "404 Client Error"))
                        (inr (JDict [("results", JList [])]))))
              (fun _ => inr []) (fun _ _ => inr []))
           (geocoding_url "Paris") None
           (mkResponse (Some (UpstreamError "404 Client Error"))
              (inr (JDict [("results", JList [])])))
           (UpstreamError "404 Client Error")).
  - left. reflexivity.
  - reflexivity.
  - reflexivity.
Defined.

(** X3. The clamp of [get_weather_forecast] makes a request for [days]
    behave, in calls and in result, as a request for the smaller of [days]
    and 16; so any two requests for 16 days or more behave alike. *)
Theorem forecast_requests_above_16_agree ctx latitude longitude w :
  (forall days,
      get_weather_forecast ctx latitude longitude days w
      = get_weather_forecast ctx latitude longitude (Z.min days 16) w)
  /\ (forall d1 d2,
        16 <= d1 -> 16 <= d2 ->
        get_weather_forecast ctx latitude longitude d1 w
        = get_weather_forecast ctx latitude longitude d2 w).
Proof.
  assert (A : forall days,
             get_weather_forecast ctx latitude longitude days w
             = get_weather_forecast ctx latitude longitude (Z.min days 16) w).
  { intros days. rewrite !get_weather_forecast_run. cbv zeta.
    rewrite !clamp_min.
    now replace (Z.min (Z.min days 16) 16) with (Z.min days 16) by lia. }
  split; [exact A|].
  intros d1 d2 H1 H2. rewrite (A d1), (A d2).
  now rewrite (Z.min_r d1 16), (Z.min_r d2 16) by lia.
Qed.

Lemma forecast_requests_above_16_agree_witness :
  get_weather_forecast HostContext (Finite "52.52") (Finite "13.41") 20
    (answering_world (JDict []) [] [])
  = get_weather_forecast HostContext (Finite "52.52") (Finite "13.41") 365
      (answering_world (JDict []) [] []).
Proof.
  apply (proj2 (forecast_requests_above_16_agree HostContext (Finite "52.52")
                  (Finite "13.41") (answering_world (JDict []) [] []))); lia.
Defined.

(** X4. For a valid period, a provider series with no rows (as for a
    symbol the provider has no data for) is a success whose payload is the
    empty list, not a failure. *)
Theorem empty_history_is_success ctx symbol period w :
  In period valid_periods ->
  ticker_history_in w symbol period = inr [] ->
  get_stock_history ctx symbol period w
  = ([TickerHistory symbol period], inr "[]").
Proof.
  intros Hp Hrows.
  rewrite get_stock_history_run by (apply str_in_In; exact Hp).
  now rewrite Hrows.
Qed.

Lemma empty_history_is_success_witness :
  get_stock_history HostContext "NOSUCH" "1mo" (answering_world JNull [] [])
  = ([TickerHistory "NOSUCH" "1mo"], inr "[]").
Proof.
  apply (empty_history_is_success HostContext "NOSUCH" "1mo"
           (answering_world JNull [] [])).
  - cbn. tauto.
  - reflexivity.
Defined.

Lemma dumps_dict_head (level : nat) (d : dict) :
  exists rest, dumps_at level (JDict d) = String "{" rest.
Proof. destruct d; cbn [dumps_at]; eexists; reflexivity. Qed.

(** X5. For the three stock tools the text tells success from failure: it
    begins with "Error " exactly when the [try] block raised.  (For
    [get_stock_history] this is for a valid period.) *)
Theorem stock_error_prefix_iff_failure ctx w :
  (forall symbol, exists out,
      snd (get_stock_price ctx symbol w) = inr out
      /\ (String.prefix "Error " out = true
          <-> exists e, ticker_info_in w symbol = inl e))
  /\ (forall symbol period,
        In period valid_periods ->
        exists out,
          snd (get_stock_history ctx symbol period w) = inr out
          /\ (String.prefix "Error " out = true
              <-> exists e, ticker_history_in w symbol period = inl e))
  /\ (forall query, exists out,
        snd (search_stocks ctx query w) = inr out
        /\ (String.prefix "Error " out = true
            <-> exists e, snd (search_results_of query w) = inl e)).
Proof.
  split; [|split].
  - intros symbol. rewrite get_stock_price_run. cbn [snd].
    eexists. split; [reflexivity|].
    destruct (ticker_info_in w symbol) as [e|info].
    + split; [eauto|intros _; reflexivity].
    + unfold json_dumps.
      destruct (dumps_dict_head 0 (stock_quote symbol info)) as [rest ->].
      split; [discriminate | intros [e E]; discriminate E].
  - intros symbol period Hp.
    rewrite get_stock_history_run by (apply str_in_In; exact Hp). cbn [snd].
    eexists. split; [reflexivity|].
    destruct (ticker_history_in w symbol period) as [e|rows].
    + split; [eauto|intros _; reflexivity].
    + unfold json_dumps.
      destruct (dumps_list_head 0 (history_rows rows [])) as [rest ->].
      split; [discriminate | intros [e E]; discriminate E].
  - intros query. rewrite search_stocks_run. cbn [snd].
    eexists. split; [reflexivity|].
    destruct (snd (search_results_of query w)) as [e|results].
    + split; [eauto|intros _; reflexivity].
    + unfold json_dumps.
      destruct (dumps_list_head 0 results) as [rest ->].
      split; [discriminate | intros [e E]; discriminate E].
Qed.

Lemma stock_error_prefix_iff_failure_witness :
  exists out,
    snd (get_stock_history HostContext "AAPL" "1y" (failing_world "timed out"))
    = inr out
    /\ String.prefix "Error " out = true.
Proof.
  destruct (proj1 (proj2 (stock_error_prefix_iff_failure HostContext
                            (failing_world "timed out")))
              "AAPL" "1y" ltac:(cbn; tauto))
    as (out & Run & Iff).
  exists out. split; [exact Run|].
  apply Iff. exists (UpstreamError "timed out"). reflexivity.
Defined.

(** ** Further properties of the search *)

Lemma search_stocks_of_payload ctx query w payload :
  http_exchange w (search_url query) (Some search_headers) = inr payload ->
  search_stocks ctx query w
  = ([HttpGet (search_url query) (Some search_headers)],
     inr match results_of_payload w payload with
         | inl e => "Error searching for stocks: " ++ str_exn e
         | inr results => json_dumps (JList results)
         end).
Proof.
  intros X. rewrite search_stocks_run, search_results_of_run. cbn [snd].
  now rewrite X.
Qed.

Lemma search_quotes_chars (s : string) (acc : list json) (w : World) :
  search_quotes (map JStr (str_chars s)) acc w = ([], inr acc).
Proof.
  induction s as [|c s IH]; [reflexivity|].
  cbn [str_chars map search_quotes]. unfold bind, lift.
  cbn [py_contains str_contains String.prefix].
  destruct (ascii_dec "s" c); cbn [orb]; now rewrite IH.
Qed.

(** X6. A search payload with no "quotes" member, with an empty "quotes"
    list, or with a string for "quotes" is a success whose payload is the
    empty list. *)
Theorem search_without_quotes_is_empty ctx query w doc :
  http_exchange w (search_url query) (Some search_headers) = inr (JDict doc) ->
  dict_lookup doc "quotes" = None
  \/ dict_lookup doc "quotes" = Some (JList [])
  \/ (exists s, dict_lookup doc "quotes" = Some (JStr s)) ->
  search_stocks ctx query w
  = ([HttpGet (search_url query) (Some search_headers)], inr "[]").
Proof.
  intros X H. rewrite (search_stocks_of_payload _ _ _ _ X).
  unfold results_of_payload. cbn [py_get]. unfold dict_get.
  destruct H as [->|[->|[s ->]]]; cbn [py_iter]; try reflexivity.
  now rewrite search_quotes_chars.
Qed.

Lemma search_without_quotes_is_empty_witness :
  search_stocks HostContext "zzzz"
    (answering_world (JDict [("count", JInt 0)]) [] [])
  = ([HttpGet (search_url "zzzz") (Some search_headers)], inr "[]").
Proof.
  apply (search_without_quotes_is_empty HostContext "zzzz"
           (answering_world (JDict [("count", JInt 0)]) [] [])
           [("count", JInt 0)]).
  - reflexivity.
  - left. reflexivity.
Defined.

(** X7. A search payload of the wrong type is a failure whose message
    names the type: a payload that is not an object has no [get], and a
    "quotes" member that is null, a boolean or a number is not iterable. *)
Theorem search_wrong_types_fail ctx query w payload :
  http_exchange w (search_url query) (Some search_headers) = inr payload ->
  (is_dict payload = false ->
   search_stocks ctx query w
   = ([HttpGet (search_url query) (Some search_headers)],
      inr ("Error searching for stocks: '" ++ type_name payload
           ++ "' object has no attribute 'get'")))
  /\ (forall doc quotes,
        payload = JDict doc ->
        dict_lookup doc "quotes" = Some quotes ->
        is_scalar quotes = true ->
        search_stocks ctx query w
        = ([HttpGet (search_url query) (Some search_headers)],
           inr ("Error searching for stocks: '" ++ type_name quotes
                ++ "' object is not iterable"))).
Proof.
  intros X. rewrite (search_stocks_of_payload _ _ _ _ X). split.
  - intros D. destruct payload; try discriminate D; reflexivity.
  - intros doc quotes -> L S. unfold results_of_payload. cbn [py_get].
    unfold dict_get. rewrite L.
    destruct quotes; try discriminate S; reflexivity.
Qed.

Lemma search_wrong_types_fail_witness :
  search_stocks HostContext "apple"
    (answering_world (JList [JStr "AAPL"]) [] [])
  = ([HttpGet (search_url "apple") (Some search_headers)],
     inr "Error searching for stocks: 'list' object has no attribute 'get'")
  /\ search_stocks HostContext "apple"
       (answering_world (JDict [("quotes", JNull)]) [] [])
     = ([HttpGet (search_url "apple") (Some search_headers)],
        inr "Error searching for stocks: 'NoneType' object is not iterable").
Proof.
  split.
  - apply (proj1 (search_wrong_types_fail HostContext "apple"
                    (answering_world (JList [JStr "AAPL"]) [] [])
                    (JList [JStr "AAPL"]) eq_refl)).
    reflexivity.
  - apply (proj2 (search_wrong_types_fail HostContext "apple"
                    (answering_world (JDict [("quotes", JNull)]) [] [])
                    (JDict [("quotes", JNull)]) eq_refl)
             [("quotes", JNull)] JNull); reflexivity.
Defined.

Lemma search_quotes_breaks (items acc : list json) (w : World) :
  existsb breaks_search items = true ->
  exists e, snd (search_quotes items acc w) = inl e.
Proof.
  revert acc. induction items as [|quote rest IH]; intros acc H;
    [discriminate H|].
  cbn [existsb] in H. cbn [search_quotes]. unfold bind, lift.
  destruct quote as [| | | | h | l | d];
    try (cbn [py_contains snd]; eauto; fail).
  - unfold breaks_search in H. cbn [is_dict negb andb py_contains] in H |- *.
    destruct (str_contains "symbol" h); [cbn [py_get snd]; eauto|].
    cbn [orb] in H. destruct (IH acc H) as [e E].
    destruct (search_quotes rest acc w). cbn [snd] in *. eauto.
  - unfold breaks_search in H. cbn [is_dict negb andb py_contains] in H |- *.
    destruct (existsb (is_str "symbol") l); [cbn [py_get snd]; eauto|].
    cbn [orb] in H. destruct (IH acc H) as [e E].
    destruct (search_quotes rest acc w). cbn [snd] in *. eauto.
  - unfold breaks_search in H. cbn [is_dict negb andb orb] in H.
    cbn [py_contains py_get].
    destruct (dict_has d "symbol").
    + match goal with
      | |- context [search_quotes rest ?a w] =>
          destruct (IH a H) as [e E]; destruct (search_quotes rest a w)
      end.
      cbn [snd] in *. eauto.
    + destruct (IH acc H) as [e E].
      destruct (search_quotes rest acc w). cbn [snd] in *. eauto.
Qed.

(** X8. The search keeps no partial results: when one item of "quotes" is
    not an object and the test for "symbol" raises or holds on it (null, a
    number, a string containing "symbol", a list with the element
    "symbol"), the whole search is a failure, whatever the other items. *)
Theorem search_keeps_no_partial_results ctx query w doc items :
  http_exchange w (search_url query) (Some search_headers) = inr (JDict doc) ->
  dict_lookup doc "quotes" = Some (JList items) ->
  existsb breaks_search items = true ->
  exists e,
    snd (search_results_of query w) = inl e
    /\ search_stocks ctx query w
       = ([HttpGet (search_url query) (Some search_headers)],
          inr ("Error searching for stocks: " ++ str_exn e)).
Proof.
  intros X L B. destruct (search_quotes_breaks items [] w B) as [e E].
  exists e. rewrite (search_stocks_of_payload _ _ _ _ X).
  rewrite search_results_of_run, X. cbn [snd].
  unfold results_of_payload. cbn [py_get]. unfold dict_get. rewrite L.
  cbn [py_iter]. rewrite E. split; reflexivity.
Qed.

Lemma search_keeps_no_partial_results_witness :
  exists e,
    snd (search_results_of "apple"
           (answering_world
              (JDict [("quotes",
                       JList [ JDict [("symbol", JStr "AAPL")]; JNull ])])
              [] []))
    = inl e
    /\ search_stocks HostContext "apple"
         (answering_world
            (JDict [("quotes",
                     JList [ JDict [("symbol", JStr "AAPL")]; JNull ])])
            [] [])
       = ([HttpGet (search_url "apple") (Some search_headers)],
          inr ("Error searching for stocks: " ++ str_exn e)).
Proof.
  apply (search_keeps_no_partial_results HostContext "apple"
           (answering_world
              (JDict [("quotes",
                       JList [ JDict [("symbol", JStr "AAPL")]; JNull ])])
              [] [])
           [("quotes", JList [ JDict [("symbol", JStr "AAPL")]; JNull ])]
           [ JDict [("symbol", JStr "AAPL")]; JNull ]); reflexivity.
Defined.

Lemma match_of_stock_match (items : list json) :
  Forall2 match_of (filter has_symbol_field items)
    (map stock_match (filter has_symbol_field items)).
Proof.
  induction items as [|quote rest IH]; [constructor|].
  cbn [filter]. destruct (has_symbol_field quote) eqn:E; [|exact IH].
  destruct quote as [| | | | | |d]; try discriminate E.
  cbn [map]. constructor; [|exact IH].
  exists d. split; [reflexivity|]. cbn [stock_match]. unfold first_of, dict_get.
  reflexivity.
Qed.

(** X9. On success the output holds, in order, one entry for each upstream
    quote with a "symbol" key, and no more entries than there are quotes.
    An entry always has the four fields symbol, name, exchange, type: the
    name is the quote's "longname" if present, else its "shortname", else
    the empty string; a missing exchange or quote type is the empty string. *)
Theorem search_entries_follow_quotes query w results :
  snd (search_results_of query w) = inr results ->
  exists payload quotes items,
    http_exchange w (search_url query) (Some search_headers) = inr payload
    /\ py_get payload "quotes" (JList []) = inr quotes
    /\ py_iter quotes = inr items
    /\ Forall2 match_of (filter has_symbol_field items) results
    /\ (List.length results <= List.length items)%nat.
Proof.
  intros H. rewrite search_results_of_run in H. cbn [snd] in H.
  destruct (http_exchange w _ _) as [e|payload]; [discriminate H|].
  unfold results_of_payload in H.
  destruct (py_get payload "quotes" _) as [e|quotes] eqn:G; [discriminate H|].
  destruct (py_iter quotes) as [e|items] eqn:I; [discriminate H|].
  exists payload, quotes, items. repeat split; try assumption.
  - rewrite (search_quotes_success items [] w results H).
    apply match_of_stock_match.
  - rewrite (search_quotes_success items [] w results H).
    cbn [app]. rewrite length_map. apply filter_length_le.
Qed.

Lemma search_entries_follow_quotes_witness :
  exists payload quotes items,
    http_exchange
      (answering_world
         (JDict [("quotes",
                  JList [ JDict [("symbol", JStr "AAPL");
                                 ("shortname", JStr "Apple Inc.");
                                 ("longname", JStr "Apple Incorporated")];
                          JDict [("shortname", JStr "No symbol")] ])])
         [] [])
      (search_url "apple") (Some search_headers) = inr payload
    /\ py_get payload "quotes" (JList []) = inr quotes
    /\ py_iter quotes = inr items
    /\ Forall2 match_of (filter has_symbol_field items)
         [ JDict [ ("symbol", JStr "AAPL");
                   ("name", JStr "Apple Incorporated");
                   ("exchange", JStr EmptyString);
                   ("type", JStr EmptyString) ] ]
    /\ (1 <= List.length items)%nat.
Proof.
  apply (search_entries_follow_quotes "apple"
           (answering_world
              (JDict [("quotes",
                       JList [ JDict [("symbol", JStr "AAPL");
                                      ("shortname", JStr "Apple Inc.");
                                      ("longname", JStr "Apple Incorporated")];
                               JDict [("shortname", JStr "No symbol")] ])])
              [] [])).
  reflexivity.
Defined.

(** ** Further properties of the quote, the history and the prompts *)

(** X10. The quote depends on the provider's [info] through the thirteen
    keys it reads only: two [info] mappings that agree on these keys give
    the same result, so no other provider field reaches the output. *)
Theorem quote_reads_only_source_keys ctx symbol w w' info info' :
  ticker_info_in w symbol = inr info ->
  ticker_info_in w' symbol = inr info' ->
  (forall k, In k quote_source_keys ->
             dict_lookup info k = dict_lookup info' k) ->
  get_stock_price ctx symbol w = get_stock_price ctx symbol w'.
Proof.
  intros H H' Agree.
  assert (E : forall k default,
             In k quote_source_keys ->
             dict_get info k default = dict_get info' k default).
  { intros k default Hk. unfold dict_get. now rewrite (Agree k Hk). }
  rewrite !get_stock_price_run, H, H'. do 3 f_equal.
  unfold stock_quote.
  rewrite !E by (cbn [In quote_source_keys]; tauto).
  reflexivity.
Qed.

Lemma quote_reads_only_source_keys_witness :
  get_stock_price HostContext "AAPL"
    (answering_world JNull
       [("shortName", JStr "Apple Inc."); ("industry", JStr "Electronics")]
       [])
  = get_stock_price HostContext "AAPL"
      (answering_world JNull [("shortName", JStr "Apple Inc.")] []).
Proof.
  apply (quote_reads_only_source_keys HostContext "AAPL"
           (answering_world JNull
              [("shortName", JStr "Apple Inc.");
               ("industry", JStr "Electronics")] [])
           (answering_world JNull [("shortName", JStr "Apple Inc.")] [])
           [("shortName", JStr "Apple Inc."); ("industry", JStr "Electronics")]
           [("shortName", JStr "Apple Inc.")] eq_refl eq_refl).
  intros k Hk. cbn [In quote_source_keys] in Hk.
  repeat (destruct Hk as [<-|Hk]; [reflexivity|]). destruct Hk.
Defined.

(** X11. When the provider's [info] has neither [currentPrice] nor
    [regularMarketPrice], the quote is still a success and its price is
    the text "N/A", which the returned text shows under the key "price". *)
Theorem price_not_available ctx symbol w info :
  ticker_info_in w symbol = inr info ->
  dict_lookup info "currentPrice" = None ->
  dict_lookup info "regularMarketPrice" = None ->
  dict_lookup (stock_quote symbol info) "price" = Some (JStr "N/A")
  /\ exists pre post,
       get_stock_price ctx symbol w
       = ([TickerInfo symbol],
          inr (pre ++ (dq ++ "price" ++ dq ++ ": " ++ dq ++ "N/A" ++ dq)
               ++ post)).
Proof.
  intros Hinfo Hcur Hreg.
  assert (L : dict_lookup (stock_quote symbol info) "price"
              = Some (JStr "N/A")).
  { cbn. unfold dict_get. now rewrite Hcur, Hreg. }
  split; [exact L|].
  destruct (dumps_dict_member 0 _ _ _ L) as (pre & post & E).
  exists pre, post. rewrite get_stock_price_run, Hinfo.
  unfold json_dumps. rewrite E. reflexivity.
Qed.

Lemma price_not_available_witness :
  dict_lookup (stock_quote "AAPL" [("shortName", JStr "Apple Inc.")]) "price"
  = Some (JStr "N/A").
Proof.
  apply (price_not_available HostContext "AAPL"
           (answering_world JNull [("shortName", JStr "Apple Inc.")] [])
           [("shortName", JStr "Apple Inc.")]); reflexivity.
Defined.

Lemma ltb_irrefl (s : string) : String.ltb s s = false.
Proof. unfold String.ltb. now rewrite compare_refl. Qed.

(** X12. The date text of a point determines the provider's day: two valid
    dates rendered alike are the same day, so rows of different days never
    share a date field. *)
Theorem date_text_determines_day (a b : Timestamp) :
  valid_date a -> valid_date b ->
  strftime_Ymd a = strftime_Ymd b -> a = b.
Proof.
  intros Va Vb E.
  assert (T : date_lt a b \/ date_lt b a
              \/ (year a = year b /\ month a = month b /\ day a = day b))
    by (unfold date_lt; lia).
  destruct T as [L|[L|(Y & Mo & D)]].
  - pose proof (strftime_increasing a b Va Vb L) as S.
    unfold str_lt in S. rewrite E, ltb_irrefl in S. discriminate S.
  - pose proof (strftime_increasing b a Vb Va L) as S.
    unfold str_lt in S. rewrite E, ltb_irrefl in S. discriminate S.
  - destruct a, b. cbn in Y, Mo, D. now subst.
Qed.

Lemma date_text_determines_day_witness :
  mkTimestamp 2024 2 29 = mkTimestamp 2024 2 29.
Proof.
  apply (date_text_determines_day (mkTimestamp 2024 2 29)
           (mkTimestamp 2024 2 29)).
  - unfold valid_date. cbn [year month day]. lia.
  - unfold valid_date. cbn [year month day]. lia.
  - reflexivity.
Defined.

Lemma str_contains_app_r (needle a b : string) :
  str_contains needle b = true -> str_contains needle (a ++ b) = true.
Proof.
  intros H. destruct (str_contains_split _ _ H) as (pre & post & ->).
  rewrite <- append_assoc. apply str_contains_intro.
Qed.

(** X13. The stock-analysis prompt, for any company, spells out the call
    [search_stocks(query="<company>")] with the company as given, then the
    calls [get_stock_price(symbol="SYMBOL")] and
    [get_stock_history(symbol="SYMBOL", period="3mo")] and the sentence
    asking for tabular output; it issues no upstream call and does not
    depend on the context or the world; the period it names is one
    [get_stock_history] accepts. *)
Theorem stock_analysis_prompt_renders :
  (forall ctx w company, exists pre post,
      stock_analysis_prompt ctx company w
      = ([], inr (pre ++ "search_stocks(query=" ++ dq ++ company ++ dq ++ ")"
                      ++ post)))
  /\ (forall ctx w company, exists text,
        stock_analysis_prompt ctx company w = ([], inr text)
        /\ str_contains ("get_stock_price(symbol=" ++ dq ++ "SYMBOL" ++ dq ++ ")")
             text = true
        /\ str_contains
             ("get_stock_history(symbol=" ++ dq ++ "SYMBOL" ++ dq
              ++ ", period=" ++ dq ++ "3mo" ++ dq ++ ")")
             text = true
        /\ str_contains "The expected output is tabular." text = true)
  /\ (forall ctx ctx' w w' company,
        stock_analysis_prompt ctx company w
        = stock_analysis_prompt ctx' company w')
  /\ str_in "3mo" valid_periods = true.
Proof.
  split; [|split; [|split]].
  - intros ctx w company. unfold stock_analysis_prompt, ret.
    eexists (nl ++ "    Perform a detailed analysis of " ++ company
             ++ "'s stock." ++ nl ++ nl
             ++ "    First, let me search for the correct stock symbol:"
             ++ nl ++ "    {{"), _.
    repeat rewrite append_assoc. cbn [append nl chr].
    repeat (rewrite ?append_assoc; cbn [append]).
    reflexivity.
  - intros ctx w company. unfold stock_analysis_prompt, ret.
    eexists. split; [reflexivity|].
    repeat split; do 11 apply str_contains_app_r; vm_compute; reflexivity.
  - reflexivity.
  - reflexivity.
Qed.

(** X14. The three weather tools return the upstream document serialized
    as it is, with nothing added, renamed or dropped; and for a document
    that is a JSON object or array the text does not begin with "Error ",
    so it is not taken for a failure. *)
Theorem documents_pass_through ctx c w url document :
  calls_of c = [HttpGet url None] ->
  http_exchange w url None = inr document ->
  invoke ctx c w = ([HttpGet url None], inr (json_dumps document))
  /\ (is_container document = true ->
      String.prefix "Error " (json_dumps document) = false).
Proof.
  intros Hc X. split.
  - destruct c; cbn [calls_of] in Hc; cbn [invoke].
    + injection Hc as <-. now rewrite get_weather_run, X.
    + injection Hc as <-. rewrite get_weather_forecast_run. cbv zeta.
      rewrite clamp_min. now rewrite X.
    + injection Hc as <-. now rewrite get_location_coordinates_run, X.
    + discriminate Hc.
    + destruct (str_in period valid_periods); discriminate Hc.
    + discriminate Hc.
  - intros K. unfold json_dumps. destruct document; try discriminate K.
    + destruct (dumps_list_head 0 l) as [rest ->]. reflexivity.
    + destruct (dumps_dict_head 0 d) as [rest ->]. reflexivity.
Qed.

Lemma documents_pass_through_witness :
  invoke HostContext (GetWeather (Finite "48.85") (Finite "2.35"))
    (answering_world
       (JDict [("current", JDict [("temperature_2m", JFloat (Finite "18.4"))])])
       [] [])
  = ([HttpGet (weather_url (Finite "48.85") (Finite "2.35")) None],
     inr ("{" ++ nl ++ "  " ++ dq ++ "current" ++ dq ++ ": {" ++ nl
          ++ "    " ++ dq ++ "temperature_2m" ++ dq ++ ": 18.4" ++ nl
          ++ "  }" ++ nl ++ "}")).
Proof.
  apply (documents_pass_through HostContext
           (GetWeather (Finite "48.85") (Finite "2.35"))
           (answering_world
              (JDict [("current",
                       JDict [("temperature_2m", JFloat (Finite "18.4"))])])
              [] [])
           (weather_url (Finite "48.85") (Finite "2.35"))
           (JDict [("current",
                    JDict [("temperature_2m", JFloat (Finite "18.4"))])]));
    reflexivity.
Defined.
